(** * train.py: the fine-tuning launcher, as a shallow embedding

    The script is straight-line orchestration of library calls.  It is
    embedded as a program in a small state-and-exception monad: every call
    into [transformers], [logging], [os], [timeit] and [wandb] is an event
    answered by an arbitrary environment, the results file lives in an
    explicit file store, and every event is appended to a trace so that the
    order of calls can be stated. *)

From Stdlib Require Import ZArith List Bool Lia.
From Stdlib Require Import Strings.String Strings.Ascii.
From Stdlib Require Import Floats.PrimFloat Floats.SpecFloat Floats.FloatOps.
From Stdlib Require Import Numbers.DecimalString.
From stdpp Require Import base option list sorting strings gmap.

Import ListNotations.
Set Warnings "-inexact-float".
Local Open Scope string_scope.
Local Open Scope Z_scope.

(** ** Python values *)

(** A Python [float] is an IEEE binary64, the kernel's primitive [float]. *)
Definition pyfloat : Set := PrimFloat.float.

(** An exception: its class and its message. *)
Inductive Exn : Type :=
| PyExn (cls : string) (msg : string).

Definition OverflowError : Exn := PyExn "OverflowError" "math range error".
Definition KeyError (key : string) : Exn := PyExn "KeyError" key.
Definition TypeError (msg : string) : Exn := PyExn "TypeError" msg.

(** What a call gives back: a value or a raised exception. *)
Inductive Outcome (A : Type) : Type :=
| Ok (a : A)
| Raised (e : Exn).
Arguments Ok {A} a.
Arguments Raised {A} e.

(** A [dict] with [str] keys keeps its insertion order: an association list
    whose keys are pairwise distinct. *)
Definition dict (V : Type) : Type := list (string * V).

Definition keys {V} (d : dict V) : list string := map fst d.

Fixpoint dict_get {V} (d : dict V) (key : string) : option V :=
  match d with
  | [] => None
  | (k, v) :: d' => if String.eqb k key then Some v else dict_get d' key
  end.

(** [".ckpt" in s]: substring test. *)
Fixpoint contains (sub s : string) : bool :=
  String.prefix sub s
  || match s with
     | EmptyString => false
     | String _ s' => contains sub s'
     end.

(** [os.path.join(a, b)] for two POSIX components. *)
Definition ends_with_slash (s : string) : bool :=
  match String.get (Nat.pred (String.length s)) s with
  | Some c => Ascii.eqb c "/"
  | None => false
  end.

Definition os_path_join (a b : string) : string :=
  if String.prefix "/" b then b
  else if (String.eqb a "" || ends_with_slash a)%bool then a ++ b
  else a ++ "/" ++ b.

(** ** [sorted] on a list of [str]

    Python compares strings code point by code point; on UTF-8 encoded byte
    strings that is the bytewise lexicographic order [String.le]. *)
Definition sorted (xs : list string) : list string := merge_sort String.le xs.

(** ** Configuration objects *)

(** [model_args], after [DictToObj]: attribute access on the keyword
    dictionary. *)
Record ModelArgs : Type := {
  config_name : option string;
  model_name_or_path : option string;
  model_type : string;
  tokenizer_name : option string;
  cache_dir : option string
}.

Record DataArgs : Type := {
  train_data_file : string;
  eval_data_file : string;
  line_by_line : bool;
  mlm : bool;
  mlm_probability : pyfloat;
  block_size : Z;
  overwrite_cache : bool
}.

Record TrainingArguments : Type := {
  output_dir : string;
  overwrite_output_dir : bool;
  do_train : bool;
  do_eval : bool;
  do_predict : bool;
  evaluate_during_training : bool;
  per_gpu_train_batch_size : Z;
  per_gpu_eval_batch_size : Z;
  gradient_accumulation_steps : Z;
  learning_rate : pyfloat;
  weight_decay : pyfloat;
  adam_epsilon : pyfloat;
  max_grad_norm : pyfloat;
  num_train_epochs : pyfloat;
  max_steps : Z;
  warmup_steps : Z;
  logging_dir : option string;
  logging_first_step : bool;
  logging_steps : Z;
  save_steps : Z;
  save_total_limit : Z;
  no_cuda : bool;
  seed : Z;
  fp16 : bool;
  fp16_opt_level : string;
  local_rank : Z
}.

(** ** Library objects: opaque references *)

Inductive Logger : Type := LoggerRef (id : N).
Inductive Config : Type := ConfigRef (id : N).
Inductive Tokenizer : Type := TokenizerRef (id : N).
Inductive Model : Type := ModelRef (id : N).
Inductive Dataset : Type := DatasetRef (id : N).
Inductive Collator : Type := CollatorRef (id : N).
Inductive Trainer : Type := TrainerRef (id : N).

(** [TrainOutput], the named tuple [trainer.train] returns. *)
Record TrainOutput : Type := {
  global_step : Z;
  training_loss : pyfloat
}.

Inductive LogLevel : Type := INFO | WARN.

(** An argument of a [logger] call. *)
Inductive LogArg : Type :=
| LInt (z : Z)
| LStr (s : string)
| LBool (b : bool)
| LTrainingArguments (a : TrainingArguments).

(** ** Events: the calls the script makes into its libraries *)

Inductive ExtCall : Type -> Type :=
| Logging_getLogger (name : string) : ExtCall Logger
| Logging_basicConfig (format datefmt : string) (level : LogLevel) : ExtCall unit
| TrainingArguments_device (a : TrainingArguments) : ExtCall string
| TrainingArguments_n_gpu (a : TrainingArguments) : ExtCall Z
| Logger_warning (lg : Logger) (fmt : string) (args : list LogArg) : ExtCall unit
| Logger_info (lg : Logger) (fmt : string) (args : list LogArg) : ExtCall unit
| Set_seed (s : Z) : ExtCall unit
| AutoConfig_from_pretrained (name cache : option string) : ExtCall Config
| AutoTokenizer_from_pretrained (name cache : option string) : ExtCall Tokenizer
| AutoModelWithLMHead_from_pretrained
    (name : option string) (from_tf : bool) (config : Config)
    (cache : option string) : ExtCall Model
| Tokenizer_add_special_tokens
    (tok : Tokenizer) (special : dict string) : ExtCall Z
| Tokenizer_len (tok : Tokenizer) : ExtCall Z
| Model_resize_token_embeddings (m : Model) (n : Z) : ExtCall unit
| LineByLineTextDataset_new
    (tok : Tokenizer) (file_path : string) (block : Z) : ExtCall Dataset
| TextDataset_new
    (tok : Tokenizer) (file_path : string) (block : Z) : ExtCall Dataset
| DataCollatorForLanguageModeling_new
    (tok : Tokenizer) (mlm : bool) (mlm_probability : pyfloat) : ExtCall Collator
| Trainer_new
    (m : Model) (args : TrainingArguments) (data_collator : Collator)
    (train_dataset eval_dataset : option Dataset)
    (prediction_loss_only : bool) : ExtCall Trainer
| Os_path_isdir (path : string) : ExtCall bool
| Timer : ExtCall pyfloat
| Trainer_train (t : Trainer) (model_path : option string) : ExtCall TrainOutput
| Trainer_save_model (t : Trainer) : ExtCall unit
| Trainer_is_world_master (t : Trainer) : ExtCall bool
| Tokenizer_save_pretrained (tok : Tokenizer) (dir : string) : ExtCall unit
| Print (s : string) : ExtCall unit
| Trainer_evaluate (t : Trainer) : ExtCall (dict pyfloat)
| Wandb_log (d : dict pyfloat) : ExtCall unit.

(** The file object [open(path, "w")] returns. *)
Record FileHandle : Type := { fh_path : string }.

(** One step of a run, as observed from outside. *)
Inductive Obs : Type :=
| ObsExt {X : Type} (c : ExtCall X) (r : Outcome X)
| ObsOpenW (path : string) (r : Outcome FileHandle)
| ObsWrite (fh : FileHandle) (s : string)
| ObsClose (fh : FileHandle).

(** ** The script *)

(** ["\n"] *)
Definition newline : string := String (Ascii.ascii_of_nat 10) EmptyString.

Definition sep : string := "<|sep|>".

(** The string constants of [main]. *)
Definition module_name : string := "__main__".
Definition log_format : string :=
  "%(asctime)s - %(levelname)s - %(name)s -   %(message)s".
Definition log_datefmt : string := "%m/%d/%Y %H:%M:%S".
Definition msg_process_rank : string :=
  "Process rank: %s, device: %s, n_gpu: %s, distributed training: %s, 16-bits training: %s".
Definition msg_parameters : string := "Training/evaluation parameters %s".
Definition msg_evaluate : string := "*** Evaluate ***".
Definition msg_eval_results : string := "***** Eval results *****".
Definition msg_key_value : string := "  %s = %s".
Definition results_file_name : string := "eval_results_lm.txt".

Section Script.

(** The environment: the state of everything outside the script, and how
    it answers each call.  Nothing is assumed about it. *)
Variable World : Type.
Variable handle : forall X, ExtCall X -> World -> Outcome X * World.

(** [math.exp] and [str] on floats are pure library functions. *)
Variable math_exp : pyfloat -> Outcome pyfloat.
Variable str_float : pyfloat -> string.

(** Whether [open(path, "w")] is refused, and with which exception. *)
Variable open_error : World -> string -> option Exn.

(** The state a run threads: the environment, the contents of the files
    the script has written, and the trace of its steps so far. *)
Record St : Type := {
  world : World;
  files : gmap string string;
  trace : list Obs
}.

Definition M (A : Type) : Type := St -> Outcome A * St.

Definition ret {A} (a : A) : M A := fun st => (Ok a, st).

Definition raise {A} (e : Exn) : M A := fun st => (Raised e, st).

Definition bind {A B} (m : M A) (k : A -> M B) : M B :=
  fun st =>
    match m st with
    | (Ok a, st') => k a st'
    | (Raised e, st') => (Raised e, st')
    end.

Definition log (o : Obs) (st : St) : St :=
  {| world := world st; files := files st; trace := trace st ++ [o] |}.

(** A call into a library: the environment answers, the step is traced. *)
Definition ext {X} (c : ExtCall X) : M X :=
  fun st =>
    let '(r, w) := handle X c (world st) in
    (r, {| world := w; files := files st; trace := trace st ++ [ObsExt c r] |}).

(** [writer.write(s)]: append to the file behind the handle. *)
Definition file_write (fh : FileHandle) (s : string) : M unit :=
  fun st =>
    (Ok tt,
     {| world := world st;
        files := <[fh_path fh := default "" (files st !! fh_path fh) ++ s]> (files st);
        trace := trace st ++ [ObsWrite fh s] |}).

(** [with open(path, "w") as writer: body]: mode ["w"] truncates the file
    or creates it empty; the handle is closed when the block is left,
    normally or by an exception. *)
Definition with_open_w {A} (path : string) (body : FileHandle -> M A) : M A :=
  fun st =>
    match open_error (world st) path with
    | Some e => (Raised e, log (ObsOpenW path (Raised e)) st)
    | None =>
        let fh := {| fh_path := path |} in
        let st1 :=
          {| world := world st;
             files := <[path := ""]> (files st);
             trace := trace st ++ [ObsOpenW path (Ok fh)] |} in
        let '(r, st2) := body fh st1 in
        (r, log (ObsClose fh) st2)
    end.

(** A pure library function that may raise. *)
Definition lift {A} (o : Outcome A) : M A := fun st => (o, st).

(** [for x in xs: body] *)
Fixpoint for_each {A} (xs : list A) (body : A -> M unit) : M unit :=
  match xs with
  | [] => ret tt
  | x :: xs' => bind (body x) (fun _ => for_each xs' body)
  end.

(** [d[key]] *)
Definition getitem {V} (d : dict V) (key : string) : M V :=
  match dict_get d key with
  | Some v => ret v
  | None => raise (KeyError key)
  end.

(** [sub in s] where [s] may be [None] *)
Definition contains_opt (sub : string) (s : option string) : M bool :=
  match s with
  | Some s => ret (contains sub s)
  | None => raise (TypeError "argument of type 'NoneType' is not iterable")
  end.

Notation "x <- m ;; k" := (bind m (fun x => k))
  (at level 20, m at level 99, k at level 200, only parsing).
Notation "m ;;; k" := (bind m (fun _ => k))
  (at level 100, k at level 200, only parsing, right associativity).

(** *** [get_dataset] *)
Definition get_dataset (args : DataArgs) (tokenizer : Tokenizer)
    (evaluate : bool) : M Dataset :=
  let file_path :=
    if evaluate then eval_data_file args else train_data_file args in
  if line_by_line args then
    ext (LineByLineTextDataset_new tokenizer file_path (block_size args))
  else
    ext (TextDataset_new tokenizer file_path (block_size args)).

(** ["%s = %s\n" % (key, str(value))] *)
Definition result_line (key : string) (value : pyfloat) : string :=
  key ++ " = " ++ str_float value ++ newline.

(** [f"Training took {hours} hours."] *)
Definition training_took (hours : pyfloat) : string :=
  "Training took " ++ str_float hours ++ " hours.".

(** *** The evaluation output block: the [with open] statement of [main],
    for the mapping [result] it is given. *)
Definition write_eval_results (logger : Logger) (output_eval_file : string)
    (result : dict pyfloat) : M unit :=
  with_open_w output_eval_file (fun writer =>
    ext (Logger_info logger msg_eval_results []) ;;;
    for_each (sorted (keys result)) (fun key =>
      v <- getitem result key ;;
      ext (Logger_info logger msg_key_value [LStr key; LStr (str_float v)]) ;;;
      v' <- getitem result key ;;
      file_write writer (result_line key v'))).

(** *** The "Add special tokens" block of [main] *)
Definition add_special_tokens_and_resize (tokenizer : Tokenizer)
    (model : Model) : M unit :=
  ext (Tokenizer_add_special_tokens tokenizer [("sep_token", sep)]) ;;;
  n <- ext (Tokenizer_len tokenizer) ;;
  ext (Model_resize_token_embeddings model n).

(** *** [main], for the three configuration objects it builds.

    [MODEL_CONFIG_CLASSES], [MODEL_TYPES] and [results] are computed and
    never read; they are left out. *)
Definition main_with (model_args : ModelArgs) (data_args : DataArgs)
    (training_args : TrainingArguments) : M unit :=
  logger <- ext (Logging_getLogger module_name) ;;
  ext (Logging_basicConfig log_format log_datefmt
         (if existsb (Z.eqb (local_rank training_args)) [-1; 0]
          then INFO else WARN)) ;;;
  device <- ext (TrainingArguments_device training_args) ;;
  n_gpu <- ext (TrainingArguments_n_gpu training_args) ;;
  ext (Logger_warning logger msg_process_rank
         [LInt (local_rank training_args); LStr device; LInt n_gpu;
          LBool (negb (local_rank training_args =? -1));
          LBool (fp16 training_args)]) ;;;
  ext (Logger_info logger msg_parameters
         [LTrainingArguments training_args]) ;;;
  (* Seed *)
  ext (Set_seed (seed training_args)) ;;;
  (* Load tokenizer and model *)
  config <- ext (AutoConfig_from_pretrained
                   (model_name_or_path model_args) (cache_dir model_args)) ;;
  tokenizer <- ext (AutoTokenizer_from_pretrained
                      (model_name_or_path model_args) (cache_dir model_args)) ;;
  from_tf <- contains_opt ".ckpt" (model_name_or_path model_args) ;;
  model <- ext (AutoModelWithLMHead_from_pretrained
                  (model_name_or_path model_args) from_tf config
                  (cache_dir model_args)) ;;
  (* Add special tokens *)
  add_special_tokens_and_resize tokenizer model ;;;
  (* Load dataset *)
  train_dataset <-
    (if do_train training_args
     then d <- get_dataset data_args tokenizer false ;; ret (Some d)
     else ret None) ;;
  eval_dataset <-
    (if do_eval training_args
     then d <- get_dataset data_args tokenizer true ;; ret (Some d)
     else ret None) ;;
  data_collator <- ext (DataCollatorForLanguageModeling_new tokenizer
                          (mlm data_args) (mlm_probability data_args)) ;;
  (* Initialize trainer *)
  trainer <- ext (Trainer_new model training_args data_collator
                    train_dataset eval_dataset true) ;;
  model_path <-
    match model_name_or_path model_args with
    | Some p =>
        is_dir <- ext (Os_path_isdir p) ;;
        ret (if is_dir then Some p else None)
    | None => ret None
    end ;;
  (* Train the model *)
  start <- ext Timer ;;
  train_results <- ext (Trainer_train trainer model_path) ;;
  end_ <- ext Timer ;;
  ext (Trainer_save_model trainer) ;;;
  master <- ext (Trainer_is_world_master trainer) ;;
  (if master
   then ext (Tokenizer_save_pretrained tokenizer (output_dir training_args))
   else ret tt) ;;;
  (* Calculate training time *)
  ext (Print (training_took
                (PrimFloat.div (PrimFloat.sub end_ start) 3600))) ;;;
  (* Evaluate model *)
  ext (Logger_info logger msg_evaluate []) ;;;
  eval_output <- ext (Trainer_evaluate trainer) ;;
  eval_loss <- getitem eval_output "eval_loss" ;;
  perplexity <- lift (math_exp eval_loss) ;;
  let result := [("perplexity", perplexity)] in
  let output_eval_file :=
    os_path_join (output_dir training_args) results_file_name in
  (* Evaluation output *)
  write_eval_results logger output_eval_file result ;;;
  (* Log evaluation and result (ppl) *)
  ext (Wandb_log [("train_loss", training_loss train_results)]) ;;;
  eval_loss' <- getitem eval_output "eval_loss" ;;
  ext (Wandb_log [("eval_loss", eval_loss')]) ;;;
  ext (Wandb_log result) ;;;
  ext (Wandb_log [("train_time",
                   PrimFloat.div (PrimFloat.sub end_ start) 3600)]).

(** The state a fresh process starts from. *)
Definition start (w : World) (fs : gmap string string) : St :=
  {| world := w; files := fs; trace := [] |}.

End Script.

Arguments world {World} s.
Arguments files {World} s.
Arguments trace {World} s.

(** ** The configuration [main] hardcodes *)

Definition default_model_args : ModelArgs := {|
  config_name := None;
  model_name_or_path := Some "gpt2";
  model_type := "gpt2";
  tokenizer_name := None;
  cache_dir := None
|}.

Definition default_data_args : DataArgs := {|
  train_data_file := "/data/train.txt";
  eval_data_file := "/data/eval.txt";
  line_by_line := false;
  mlm := false;
  mlm_probability := 0.15%float;
  block_size := 512;
  overwrite_cache := false
|}.

Definition default_training_args : TrainingArguments := {|
  output_dir := "/gpt2";
  overwrite_output_dir := true;
  do_train := true;
  do_eval := true;
  do_predict := false;
  evaluate_during_training := true;
  per_gpu_train_batch_size := 1;
  per_gpu_eval_batch_size := 1;
  gradient_accumulation_steps := 1;
  learning_rate := 5e-5%float;
  weight_decay := 0.0%float;
  adam_epsilon := 1e-08%float;
  max_grad_norm := 1.0%float;
  num_train_epochs := 5.0%float;
  max_steps := -1;
  warmup_steps := 0;
  logging_dir := None;
  logging_first_step := false;
  logging_steps := 10000;
  save_steps := 10000;
  save_total_limit := 10;
  no_cuda := false;
  seed := 42;
  fp16 := false;
  fp16_opt_level := "O1";
  local_rank := -1
|}.

(** [main()] *)
Definition main {World} handle math_exp str_float open_error : M World unit :=
  main_with World handle math_exp str_float open_error
    default_model_args default_data_args default_training_args.

(** Setters, to vary one option of a configuration. *)
Definition set_overwrite_cache (b : bool) (a : DataArgs) : DataArgs := {|
  train_data_file := train_data_file a;
  eval_data_file := eval_data_file a;
  line_by_line := line_by_line a;
  mlm := mlm a;
  mlm_probability := mlm_probability a;
  block_size := block_size a;
  overwrite_cache := b
|}.


(** ** Reading a trace *)

Module Trace.

(** The kind of a call, without its arguments. *)
Inductive Kind : Type :=
| KGetLogger | KBasicConfig | KDevice | KNGpu | KWarning | KInfo | KSetSeed
| KConfig | KTokenizer | KModel | KAddSpecialTokens | KLen | KResize
| KLineByLineDataset | KTextDataset | KCollator | KTrainer | KIsdir
| KTimer | KTrain | KSaveModel | KIsWorldMaster | KSavePretrained | KPrint
| KEvaluate | KWandbLog | KOpen | KWrite | KClose.

Definition call_kind {X} (c : ExtCall X) : Kind :=
  match c with
  | Logging_getLogger _ => KGetLogger
  | Logging_basicConfig _ _ _ => KBasicConfig
  | TrainingArguments_device _ => KDevice
  | TrainingArguments_n_gpu _ => KNGpu
  | Logger_warning _ _ _ => KWarning
  | Logger_info _ _ _ => KInfo
  | Set_seed _ => KSetSeed
  | AutoConfig_from_pretrained _ _ => KConfig
  | AutoTokenizer_from_pretrained _ _ => KTokenizer
  | AutoModelWithLMHead_from_pretrained _ _ _ _ => KModel
  | Tokenizer_add_special_tokens _ _ => KAddSpecialTokens
  | Tokenizer_len _ => KLen
  | Model_resize_token_embeddings _ _ => KResize
  | LineByLineTextDataset_new _ _ _ => KLineByLineDataset
  | TextDataset_new _ _ _ => KTextDataset
  | DataCollatorForLanguageModeling_new _ _ _ => KCollator
  | Trainer_new _ _ _ _ _ _ => KTrainer
  | Os_path_isdir _ => KIsdir
  | Timer => KTimer
  | Trainer_train _ _ => KTrain
  | Trainer_save_model _ => KSaveModel
  | Trainer_is_world_master _ => KIsWorldMaster
  | Tokenizer_save_pretrained _ _ => KSavePretrained
  | Print _ => KPrint
  | Trainer_evaluate _ => KEvaluate
  | Wandb_log _ => KWandbLog
  end.

Definition kind (o : Obs) : Kind :=
  match o with
  | ObsExt c _ => call_kind c
  | ObsOpenW _ _ => KOpen
  | ObsWrite _ _ => KWrite
  | ObsClose _ => KClose
  end.

Definition kind_eqb (a b : Kind) : bool :=
  match a, b with
  | KGetLogger, KGetLogger | KBasicConfig, KBasicConfig | KDevice, KDevice
  | KNGpu, KNGpu | KWarning, KWarning | KInfo, KInfo | KSetSeed, KSetSeed
  | KConfig, KConfig | KTokenizer, KTokenizer | KModel, KModel
  | KAddSpecialTokens, KAddSpecialTokens | KLen, KLen | KResize, KResize
  | KLineByLineDataset, KLineByLineDataset | KTextDataset, KTextDataset
  | KCollator, KCollator | KTrainer, KTrainer | KIsdir, KIsdir
  | KTimer, KTimer | KTrain, KTrain | KSaveModel, KSaveModel
  | KIsWorldMaster, KIsWorldMaster | KSavePretrained, KSavePretrained
  | KPrint, KPrint | KEvaluate, KEvaluate | KWandbLog, KWandbLog
  | KOpen, KOpen | KWrite, KWrite | KClose, KClose => true
  | _, _ => false
  end.

Definition is_kind (ks : list Kind) (o : Obs) : bool :=
  existsb (kind_eqb (kind o)) ks.

(** How many steps of the given kinds the trace has. *)
Fixpoint count (ks : list Kind) (tr : list Obs) : nat :=
  match tr with
  | [] => O
  | o :: tr' => ((if is_kind ks o then 1 else 0) + count ks tr')%nat
  end.

(** [precedes ps qs tr]: no step of a kind in [ps] comes at or after the
    first step of a kind in [qs]; every [ps] step is strictly earlier than
    every [qs] step. *)
Fixpoint precedes (ps qs : list Kind) (tr : list Obs) : bool :=
  match tr with
  | [] => true
  | o :: tr' =>
      if is_kind qs o
      then forallb (fun o' => negb (is_kind ps o')) tr
      else precedes ps qs tr'
  end.

(** The [model_path] argument of each [trainer.train] call. *)
Definition train_model_path (o : Obs) : option (option string) :=
  match o with
  | ObsExt c _ =>
      match c with
      | Trainer_train _ mp => Some mp
      | _ => None
      end
  | _ => None
  end.

Definition train_calls (tr : list Obs) : list (option string) :=
  omap train_model_path tr.

(** Whether [os.path.isdir(p)] was asked and answered [True]. *)
Definition isdir_true (p : string) (o : Obs) : bool :=
  match o with
  | ObsExt c r =>
      match c in ExtCall X return Outcome X -> bool with
      | Os_path_isdir q =>
          fun r => match r with
                   | Ok b => String.eqb p q && b
                   | Raised _ => false
                   end
      | _ => fun _ => false
      end r
  | _ => false
  end.

(** The reading of a [timer()] call. *)
Definition timer_reading (o : Obs) : option pyfloat :=
  match o with
  | ObsExt c r =>
      match c in ExtCall X return Outcome X -> option pyfloat with
      | Timer => fun r => match r with Ok t => Some t | Raised _ => None end
      | _ => fun _ => None
      end r
  | _ => None
  end.

(** The two clock readings taken immediately before and immediately after
    the [trainer.train] call, when the trace has them. *)
Fixpoint train_window (tr : list Obs) : option (pyfloat * pyfloat) :=
  match tr with
  | [] => None
  | o1 :: tr1 =>
      match timer_reading o1, tr1 with
      | Some t1, o2 :: o3 :: _ =>
          match kind o2, timer_reading o3 with
          | KTrain, Some t2 => Some (t1, t2)
          | _, _ => train_window tr1
          end
      | _, _ => train_window tr1
      end
  end.

(** The mapping of each [wandb.log] call. *)
Definition wandb_logged (o : Obs) : option (dict pyfloat) :=
  match o with
  | ObsExt c _ =>
      match c with
      | Wandb_log d => Some d
      | _ => None
      end
  | _ => None
  end.

(** The values sent to the metrics service under [key]. *)
Definition logged (key : string) (tr : list Obs) : list pyfloat :=
  omap (fun o => match wandb_logged o with
                 | Some d => dict_get d key
                 | None => None
                 end) tr.


(** The metrics each successful [trainer.evaluate] call returned. *)
Definition evaluated (tr : list Obs) : list (dict pyfloat) :=
  omap (fun o => match o with
                 | ObsExt c r =>
                     match c in ExtCall X
                           return Outcome X -> option (dict pyfloat) with
                     | Trainer_evaluate _ =>
                         fun r => match r with
                                  | Ok d => Some d
                                  | Raised _ => None
                                  end
                     | _ => fun _ => None
                     end r
                 | _ => None
                 end) tr.

(** The strings written to files, in order. *)
Definition written (tr : list Obs) : list string :=
  omap (fun o => match o with
                 | ObsWrite _ s => Some s
                 | _ => None
                 end) tr.


End Trace.

(** ** Reading the arguments and the answers of calls *)

Module Calls.

(** The exception a step failed with. *)
Definition failure (o : Obs) : option Exn :=
  match o with
  | ObsExt _ (Raised e) => Some e
  | ObsOpenW _ (Raised e) => Some e
  | _ => None
  end.

Definition failures (tr : list Obs) : list Exn := omap failure tr.


(** What a call of type [X] answered, when it did not raise. *)
Definition answer {X} (r : Outcome X) : option X :=
  match r with
  | Ok x => Some x
  | Raised _ => None
  end.

(** The loggers [logging.getLogger] returned. *)
Definition loggers (tr : list Obs) : list Logger :=
  omap (fun o => match o with
                 | ObsExt c r =>
                     match c in ExtCall X return Outcome X -> option Logger with
                     | Logging_getLogger _ => answer
                     | _ => fun _ => None
                     end r
                 | _ => None
                 end) tr.

(** The arguments of each [logging.basicConfig] call. *)
Definition basic_configs (tr : list Obs) : list (string * string * LogLevel) :=
  omap (fun o => match o with
                 | ObsExt c _ =>
                     match c with
                     | Logging_basicConfig f d l => Some (f, d, l)
                     | _ => None
                     end
                 | _ => None
                 end) tr.

(** The format and the arguments of each [logger.warning] call. *)
Definition warnings (tr : list Obs) : list (string * list LogArg) :=
  omap (fun o => match o with
                 | ObsExt c _ =>
                     match c with
                     | Logger_warning _ f args => Some (f, args)
                     | _ => None
                     end
                 | _ => None
                 end) tr.

(** The format and the arguments of each [logger.info] call. *)
Definition infos (tr : list Obs) : list (string * list LogArg) :=
  omap (fun o => match o with
                 | ObsExt c _ =>
                     match c with
                     | Logger_info _ f args => Some (f, args)
                     | _ => None
                     end
                 | _ => None
                 end) tr.

(** What [training_args.device] and [training_args.n_gpu] answered. *)
Definition devices (tr : list Obs) : list string :=
  omap (fun o => match o with
                 | ObsExt c r =>
                     match c in ExtCall X return Outcome X -> option string with
                     | TrainingArguments_device _ => answer
                     | _ => fun _ => None
                     end r
                 | _ => None
                 end) tr.

Definition gpu_counts (tr : list Obs) : list Z :=
  omap (fun o => match o with
                 | ObsExt c r =>
                     match c in ExtCall X return Outcome X -> option Z with
                     | TrainingArguments_n_gpu _ => answer
                     | _ => fun _ => None
                     end r
                 | _ => None
                 end) tr.

(** The argument of each [set_seed] call. *)
Definition seeds (tr : list Obs) : list Z :=
  omap (fun o => match o with
                 | ObsExt c _ =>
                     match c with
                     | Set_seed s => Some s
                     | _ => None
                     end
                 | _ => None
                 end) tr.

(** The name and cache directory of each [AutoConfig.from_pretrained] call
    that returned, with the configuration it returned. *)
Definition configs_loaded (tr : list Obs)
    : list (option string * option string * Config) :=
  omap (fun o => match o with
                 | ObsExt c r =>
                     match c in ExtCall X
                           return Outcome X
                                  -> option (option string * option string * Config)
                     with
                     | AutoConfig_from_pretrained n cd =>
                         fun r => pair (n, cd) <$> answer r
                     | _ => fun _ => None
                     end r
                 | _ => None
                 end) tr.

(** The same for [AutoTokenizer.from_pretrained]. *)
Definition tokenizers_loaded (tr : list Obs)
    : list (option string * option string * Tokenizer) :=
  omap (fun o => match o with
                 | ObsExt c r =>
                     match c in ExtCall X
                           return Outcome X
                                  -> option (option string * option string * Tokenizer)
                     with
                     | AutoTokenizer_from_pretrained n cd =>
                         fun r => pair (n, cd) <$> answer r
                     | _ => fun _ => None
                     end r
                 | _ => None
                 end) tr.

(** The arguments of each [AutoModelWithLMHead.from_pretrained] call:
    name, [from_tf], configuration and cache directory. *)
Definition model_requests (tr : list Obs)
    : list (option string * bool * Config * option string) :=
  omap (fun o => match o with
                 | ObsExt c _ =>
                     match c with
                     | AutoModelWithLMHead_from_pretrained n tf cfg cd =>
                         Some (n, tf, cfg, cd)
                     | _ => None
                     end
                 | _ => None
                 end) tr.

(** The models [AutoModelWithLMHead.from_pretrained] returned. *)
Definition models_loaded (tr : list Obs) : list Model :=
  omap (fun o => match o with
                 | ObsExt c r =>
                     match c in ExtCall X return Outcome X -> option Model with
                     | AutoModelWithLMHead_from_pretrained _ _ _ _ => answer
                     | _ => fun _ => None
                     end r
                 | _ => None
                 end) tr.

(** Each dataset that was built: whether by the line-by-line constructor,
    the tokenizer, the file, the block size, and the dataset returned. *)
Definition datasets_built (tr : list Obs)
    : list (bool * Tokenizer * string * Z * Dataset) :=
  omap (fun o => match o with
                 | ObsExt c r =>
                     match c in ExtCall X
                           return Outcome X
                                  -> option (bool * Tokenizer * string * Z * Dataset)
                     with
                     | LineByLineTextDataset_new tok p b =>
                         fun r => pair (true, tok, p, b) <$> answer r
                     | TextDataset_new tok p b =>
                         fun r => pair (false, tok, p, b) <$> answer r
                     | _ => fun _ => None
                     end r
                 | _ => None
                 end) tr.

(** Each collator that was built, with the arguments it was built from. *)
Definition collators_built (tr : list Obs)
    : list (Tokenizer * bool * pyfloat * Collator) :=
  omap (fun o => match o with
                 | ObsExt c r =>
                     match c in ExtCall X
                           return Outcome X
                                  -> option (Tokenizer * bool * pyfloat * Collator)
                     with
                     | DataCollatorForLanguageModeling_new tok mlm p =>
                         fun r => pair (tok, mlm, p) <$> answer r
                     | _ => fun _ => None
                     end r
                 | _ => None
                 end) tr.

(** The arguments of each [Trainer(...)] call. *)
Record TrainerArgs : Type := {
  ta_model : Model;
  ta_args : TrainingArguments;
  ta_data_collator : Collator;
  ta_train_dataset : option Dataset;
  ta_eval_dataset : option Dataset;
  ta_prediction_loss_only : bool
}.

Definition trainer_requests (tr : list Obs) : list TrainerArgs :=
  omap (fun o => match o with
                 | ObsExt c _ =>
                     match c with
                     | Trainer_new m a dc td ed plo =>
                         Some {| ta_model := m; ta_args := a;
                                 ta_data_collator := dc;
                                 ta_train_dataset := td;
                                 ta_eval_dataset := ed;
                                 ta_prediction_loss_only := plo |}
                     | _ => None
                     end
                 | _ => None
                 end) tr.

(** The trainers [Trainer(...)] returned. *)
Definition trainers_built (tr : list Obs) : list Trainer :=
  omap (fun o => match o with
                 | ObsExt c r =>
                     match c in ExtCall X return Outcome X -> option Trainer with
                     | Trainer_new _ _ _ _ _ _ => answer
                     | _ => fun _ => None
                     end r
                 | _ => None
                 end) tr.

(** What each [trainer.train] call returned. *)
Definition train_outputs (tr : list Obs) : list TrainOutput :=
  omap (fun o => match o with
                 | ObsExt c r =>
                     match c in ExtCall X return Outcome X -> option TrainOutput with
                     | Trainer_train _ _ => answer
                     | _ => fun _ => None
                     end r
                 | _ => None
                 end) tr.

(** What each [trainer.is_world_master] call answered. *)
Definition world_master_answers (tr : list Obs) : list bool :=
  omap (fun o => match o with
                 | ObsExt c r =>
                     match c in ExtCall X return Outcome X -> option bool with
                     | Trainer_is_world_master _ => answer
                     | _ => fun _ => None
                     end r
                 | _ => None
                 end) tr.

(** The tokenizer and the directory of each [save_pretrained] call. *)
Definition saved_pretrained (tr : list Obs) : list (Tokenizer * string) :=
  omap (fun o => match o with
                 | ObsExt c _ =>
                     match c with
                     | Tokenizer_save_pretrained tok dir => Some (tok, dir)
                     | _ => None
                     end
                 | _ => None
                 end) tr.

(** The mappings sent to the metrics service, in order. *)
Definition wandb_logs (tr : list Obs) : list (dict pyfloat) :=
  omap Trace.wandb_logged tr.

(** The paths opened for writing, and the paths of the handles closed. *)
Definition opened (tr : list Obs) : list string :=
  omap (fun o => match o with
                 | ObsOpenW p (Ok _) => Some p
                 | _ => None
                 end) tr.

Definition closed (tr : list Obs) : list string :=
  omap (fun o => match o with
                 | ObsClose fh => Some (fh_path fh)
                 | _ => None
                 end) tr.

(** The object each step is applied to or handed. *)
Definition logger_used (o : Obs) : option Logger :=
  match o with
  | ObsExt c _ =>
      match c with
      | Logger_warning lg _ _ | Logger_info lg _ _ => Some lg
      | _ => None
      end
  | _ => None
  end.

Definition config_used (o : Obs) : option Config :=
  match o with
  | ObsExt c _ =>
      match c with
      | AutoModelWithLMHead_from_pretrained _ _ cfg _ => Some cfg
      | _ => None
      end
  | _ => None
  end.

Definition tokenizer_used (o : Obs) : option Tokenizer :=
  match o with
  | ObsExt c _ =>
      match c with
      | Tokenizer_add_special_tokens tok _ | Tokenizer_len tok
      | LineByLineTextDataset_new tok _ _ | TextDataset_new tok _ _
      | DataCollatorForLanguageModeling_new tok _ _
      | Tokenizer_save_pretrained tok _ => Some tok
      | _ => None
      end
  | _ => None
  end.

Definition model_used (o : Obs) : option Model :=
  match o with
  | ObsExt c _ =>
      match c with
      | Model_resize_token_embeddings m _ | Trainer_new m _ _ _ _ _ => Some m
      | _ => None
      end
  | _ => None
  end.

Definition trainer_used (o : Obs) : option Trainer :=
  match o with
  | ObsExt c _ =>
      match c with
      | Trainer_train t _ | Trainer_save_model t | Trainer_is_world_master t
      | Trainer_evaluate t => Some t
      | _ => None
      end
  | _ => None
  end.

End Calls.

(** ** A stub environment

    A tokenizer with a vocabulary, a model with an embedding table, a
    trainer that returns fixed metrics and a clock that the long library
    calls advance.  It stands in for the libraries wherever a statement is
    instantiated or evaluated. *)

Module Mock.

Record World : Type := {
  vocab : list string;
  embedding_rows : Z;
  eval_metrics : dict pyfloat;
  dirs : list string;
  clock : pyfloat
}.

Definition tick (dt : pyfloat) (w : World) : World := {|
  vocab := vocab w;
  embedding_rows := embedding_rows w;
  eval_metrics := eval_metrics w;
  dirs := dirs w;
  clock := (clock w + dt)%float
|}.

Definition in_vocab (w : World) (tok : string) : bool :=
  existsb (String.eqb tok) (vocab w).

(** [add_special_tokens]: tokens not yet in the vocabulary are appended;
    the number of tokens added is returned. *)
Definition add_tokens (special : dict string) (w : World) : Z * World :=
  let fresh :=
    List.filter (fun tok => negb (in_vocab w tok)) (map snd special) in
  (Z.of_nat (length fresh),
   {| vocab := vocab w ++ fresh;
      embedding_rows := embedding_rows w;
      eval_metrics := eval_metrics w;
      dirs := dirs w;
      clock := clock w |}).

Definition resize (n : Z) (w : World) : World := {|
  vocab := vocab w;
  embedding_rows := n;
  eval_metrics := eval_metrics w;
  dirs := dirs w;
  clock := clock w
|}.

Definition handle (X : Type) (c : ExtCall X) : World -> Outcome X * World :=
  match c in ExtCall X return World -> Outcome X * World with
  | Logging_getLogger _ => fun w => (Ok (LoggerRef 0), w)
  | Logging_basicConfig _ _ _ => fun w => (Ok tt, w)
  | TrainingArguments_device _ => fun w => (Ok "cpu", w)
  | TrainingArguments_n_gpu _ => fun w => (Ok 0, w)
  | Logger_warning _ _ _ => fun w => (Ok tt, w)
  | Logger_info _ _ _ => fun w => (Ok tt, w)
  | Set_seed _ => fun w => (Ok tt, w)
  | AutoConfig_from_pretrained _ _ => fun w => (Ok (ConfigRef 0), w)
  | AutoTokenizer_from_pretrained _ _ => fun w => (Ok (TokenizerRef 0), w)
  | AutoModelWithLMHead_from_pretrained _ _ _ _ => fun w => (Ok (ModelRef 0), w)
  | Tokenizer_add_special_tokens _ special =>
      fun w => let '(n, w') := add_tokens special w in (Ok n, w')
  | Tokenizer_len _ => fun w => (Ok (Z.of_nat (length (vocab w))), w)
  | Model_resize_token_embeddings _ n => fun w => (Ok tt, resize n w)
  | LineByLineTextDataset_new _ _ _ => fun w => (Ok (DatasetRef 0), tick 1%float w)
  | TextDataset_new _ _ _ => fun w => (Ok (DatasetRef 1), tick 1%float w)
  | DataCollatorForLanguageModeling_new _ _ _ => fun w => (Ok (CollatorRef 0), w)
  | Trainer_new _ _ _ _ _ _ => fun w => (Ok (TrainerRef 0), w)
  | Os_path_isdir p => fun w => (Ok (existsb (String.eqb p) (dirs w)), w)
  | Timer => fun w => (Ok (clock w), w)
  | Trainer_train _ _ =>
      fun w => (Ok {| global_step := 100; training_loss := 2.5%float |},
                tick 7200%float w)
  | Trainer_save_model _ => fun w => (Ok tt, tick 60%float w)
  | Trainer_is_world_master _ => fun w => (Ok true, w)
  | Tokenizer_save_pretrained _ _ => fun w => (Ok tt, tick 1%float w)
  | Print _ => fun w => (Ok tt, w)
  | Trainer_evaluate _ => fun w => (Ok (eval_metrics w), tick 600%float w)
  | Wandb_log _ => fun w => (Ok tt, w)
  end.

(** A stand-in for the C library's [exp]: a truncated series on the
    argument scaled down by [2^12], squared back twelve times.  It is exact
    at zero and overflows to infinity like the real one. *)
Definition series (y : pyfloat) : pyfloat :=
  fold_right (fun k acc => (1 + y / k * acc)%float) 1%float
    [1; 2; 3; 4; 5; 6; 7; 8; 9; 10; 11; 12]%float.

Definition pos_exp (x : pyfloat) : pyfloat :=
  Nat.iter 12 (fun r => (r * r)%float) (series (x / 4096)%float).

Definition c_exp (x : pyfloat) : pyfloat :=
  if PrimFloat.is_nan x then x
  else if (x <? 0)%float then (1 / pos_exp (- x))%float
  else pos_exp x.

(** [math.exp]: the C result, with an infinite result for a finite argument
    reported as [OverflowError]. *)
Definition math_exp (x : pyfloat) : Outcome pyfloat :=
  let r := c_exp x in
  if PrimFloat.is_infinity r && PrimFloat.is_finite x
  then Raised OverflowError
  else Ok r.

(** A stand-in for [str] on floats: exact on integral values, a class name
    on the others. *)
Definition str_float (x : pyfloat) : string :=
  match Prim2SF x with
  | S754_zero s => if s then "-0.0" else "0.0"
  | S754_infinity s => if s then "-inf" else "inf"
  | S754_nan => "nan"
  | S754_finite s m e =>
      if (0 <=? e)%Z
      then (if s then "-" else "")
           ++ NilEmpty.string_of_uint (Pos.to_uint (m * 2 ^ Z.to_pos e)) ++ ".0"
      else if (Z.pos m mod 2 ^ (- e) =? 0)%Z
      then (if s then "-" else "")
           ++ NilEmpty.string_of_uint (N.to_uint (Z.to_N (Z.pos m / 2 ^ (- e)))) ++ ".0"
      else "<float>"
  end.

Definition open_error (w : World) (path : string) : option Exn := None.

(** The stock GPT-2 tokenizer has 50257 tokens; three stand for them. *)
Definition world0 : World := {|
  vocab := ["<|endoftext|>"; "the"; "of"];
  embedding_rows := 3;
  eval_metrics := [("eval_loss", 0%float); ("epoch", 5%float)];
  dirs := [];
  clock := 0%float
|}.

Definition with_eval_metrics (d : dict pyfloat) (w : World) : World := {|
  vocab := vocab w;
  embedding_rows := embedding_rows w;
  eval_metrics := d;
  dirs := dirs w;
  clock := clock w
|}.

Definition with_dirs (ds : list string) (w : World) : World := {|
  vocab := vocab w;
  embedding_rows := embedding_rows w;
  eval_metrics := eval_metrics w;
  dirs := ds;
  clock := clock w
|}.

(** A run of [main_with] in the stub environment. *)
Definition run (m : ModelArgs) (d : DataArgs) (t : TrainingArguments)
    (w : World) (fs : gmap string string) : Outcome unit * St World :=
  main_with World handle math_exp str_float open_error m d t (start World w fs).

End Mock.


(** ** Properties *)

Lemma sorted_singleton (k : string) : sorted [k] = [k].
Proof. reflexivity. Qed.

Lemma dict_get_singleton {V} (k : string) (v : V) :
  dict_get [(k, v)] k = Some v.
Proof. simpl. now rewrite String.eqb_refl. Qed.


Lemma append_nil_r (s : string) : s ++ "" = s.
Proof.
  induction s as [|c s IH]; [reflexivity|].
  change (String c (s ++ "") = String c s). now rewrite IH.
Qed.

(** Concatenation of the lines of a file. *)
Definition join_lines (ls : list string) : string :=
  fold_right String.append "" ls.


Lemma dict_get_not_key {V} (d : dict V) (k : string) :
  ~ In k (keys d) -> dict_get d k = None.
Proof.
  induction d as [|[k' v] d IH]; cbn; [easy|].
  intros Hn. destruct (String.eqb_spec k' k) as [->|_]; [tauto|].
  apply IH. tauto.
Qed.






(** The model path [main] hands to [trainer.train] according to its trace:
    the configured name when [os.path.isdir] was asked about it and answered
    [True], [None] otherwise. *)
Definition expected_model_path (m : ModelArgs) (tr : list Obs) : option string :=
  match model_name_or_path m with
  | Some p => if existsb (Trace.isdir_true p) tr then Some p else None
  | None => None
  end.

(** The constructor call [get_dataset] makes. *)
Definition dataset_ctor (args : DataArgs) (tokenizer : Tokenizer)
    (evaluate : bool) : ExtCall Dataset :=
  let file_path :=
    if evaluate then eval_data_file args else train_data_file args in
  if line_by_line args
  then LineByLineTextDataset_new tokenizer file_path (block_size args)
  else TextDataset_new tokenizer file_path (block_size args).

(** Where [main] writes its results. *)
Definition results_path (t : TrainingArguments) : string :=
  os_path_join (output_dir t) results_file_name.

(** The training time in hours between two clock readings. *)
Definition hours_between (t1 t2 : pyfloat) : pyfloat :=
  PrimFloat.div (PrimFloat.sub t2 t1) 3600.

Section Properties.

Context {World : Type}.
Variable handle : forall X, ExtCall X -> World -> Outcome X * World.
Variable math_exp : pyfloat -> Outcome pyfloat.
Variable str_float : pyfloat -> string.
Variable open_error : World -> string -> option Exn.

(** *** Reasoning about runs

    [wp m st Q]: the run of [m] from [st] ends in an outcome and a state
    that satisfy [Q]. *)
Definition wp {A} (m : M World A) (st : St World)
    (Q : Outcome A -> St World -> Prop) : Prop :=
  let '(r, st') := m st in Q r st'.

Lemma wp_ret {A} (a : A) st Q : Q (Ok a) st -> wp (ret World a) st Q.
Proof. exact (fun H => H). Qed.

Lemma wp_raise {A} (e : Exn) st (Q : Outcome A -> _ -> Prop) :
  Q (Raised e) st -> wp (raise World e) st Q.
Proof. exact (fun H => H). Qed.

Lemma wp_lift {A} (o : Outcome A) st Q : Q o st -> wp (lift World o) st Q.
Proof. exact (fun H => H). Qed.

Lemma wp_bind {A B} (m : M World A) (k : A -> M World B) st Q :
  wp m st (fun r st' =>
             match r with
             | Ok a => wp (k a) st' Q
             | Raised e => Q (Raised e) st'
             end) ->
  wp (bind World m k) st Q.
Proof.
  unfold wp, bind. destruct (m st) as [[a|e] st']; auto.
Qed.

Lemma wp_ext {X} (c : ExtCall X) st Q :
  (forall r w, handle X c (world st) = (r, w) ->
     Q r {| world := w; files := files st;
            trace := trace st ++ [ObsExt c r] |}) ->
  wp (ext World handle c) st Q.
Proof.
  unfold wp, ext. intros H.
  destruct (handle X c (world st)) as [r w'] eqn:E. now apply H.
Qed.

Lemma wp_file_write fh s st Q :
  Q (Ok tt)
    {| world := world st;
       files := <[fh_path fh := default "" (files st !! fh_path fh) ++ s]>
                  (files st);
       trace := trace st ++ [ObsWrite fh s] |} ->
  wp (file_write World fh s) st Q.
Proof. exact (fun H => H). Qed.

Lemma wp_with_open_w {A} path (body : FileHandle -> M World A) st Q :
  (forall e, open_error (world st) path = Some e ->
     Q (Raised e) (log World (ObsOpenW path (Raised e)) st)) ->
  (open_error (world st) path = None ->
     wp (body {| fh_path := path |})
        {| world := world st; files := <[path := ""]> (files st);
           trace := trace st ++ [ObsOpenW path (Ok {| fh_path := path |})] |}
        (fun r st' => Q r (log World (ObsClose {| fh_path := path |}) st'))) ->
  wp (with_open_w World open_error path body) st Q.
Proof.
  unfold wp, with_open_w. intros He Hn.
  destruct (open_error (world st) path) as [e|]; [now apply He|].
  specialize (Hn eq_refl). cbv zeta.
  destruct (body _ _) as [r st2]. exact Hn.
Qed.

Lemma wp_getitem {V} (d : dict V) key st Q :
  match dict_get d key with
  | Some v => Q (Ok v) st
  | None => Q (Raised (KeyError key)) st
  end ->
  wp (getitem World d key) st Q.
Proof. unfold wp, getitem. destruct (dict_get d key); auto. Qed.


(** A call made only when [b] holds: both cases continue from one state,
    written with [b] in it. *)
Lemma wp_opt_ext {X Y} (b : bool) (c : ExtCall X) (f : X -> Y) (y0 : Y)
    (x0 : X) st Q :
  (forall x w,
     Q (Ok (if b then f x else y0))
       {| world := if b then w else world st; files := files st;
          trace := trace st ++ (if b then [ObsExt c (Ok x)] else []) |}) ->
  (forall e w, b = true ->
     Q (Raised e)
       {| world := w; files := files st;
          trace := trace st ++ [ObsExt c (Raised e)] |}) ->
  wp (if b then bind World (ext World handle c) (fun x => ret World (f x))
      else ret World y0) st Q.
Proof.
  intros Hok Herr. destruct b.
  - apply wp_bind, wp_ext. intros [x|e] w _.
    + apply wp_ret, Hok.
    + now apply Herr.
  - apply wp_ret. specialize (Hok x0 (world st)). cbn in Hok.
    rewrite app_nil_r in Hok. now destruct st.
Qed.

Lemma wp_opt_ext_unit (b : bool) (c : ExtCall unit) st Q :
  (forall w,
     Q (Ok tt)
       {| world := if b then w else world st; files := files st;
          trace := trace st ++ (if b then [ObsExt c (Ok tt)] else []) |}) ->
  (forall e w, b = true ->
     Q (Raised e)
       {| world := w; files := files st;
          trace := trace st ++ [ObsExt c (Raised e)] |}) ->
  wp (if b then ext World handle c else ret World tt) st Q.
Proof.
  intros Hok Herr. destruct b.
  - apply wp_ext. intros [[]|e] w _.
    + apply Hok.
    + now apply Herr.
  - apply wp_ret. specialize (Hok (world st)). cbn in Hok.
    rewrite app_nil_r in Hok. now destruct st.
Qed.

Lemma get_dataset_eq (args : DataArgs) (tokenizer : Tokenizer)
    (evaluate : bool) :
  get_dataset World handle args tokenizer evaluate
  = ext World handle (dataset_ctor args tokenizer evaluate).
Proof. unfold get_dataset, dataset_ctor. now destruct (line_by_line args). Qed.

Ltac wp_simpl :=
  lazymatch goal with
  | |- wp ?m ?st ?Q =>
      let st' := eval cbn [world files trace log app fh_path] in st in
      change (wp m st' Q)
  | |- _ => cbn [world files trace log app fh_path]
  end.

(** One step of symbolic execution.  [wp_step] forgets what the
    environment answered from which state; [wp_step_eq] keeps it. *)
Ltac wp_step_gen keep :=
  lazymatch goal with
  | |- wp (bind _ _ _) _ _ => apply wp_bind
  | |- wp (ext _ _ _) _ _ =>
      let r := fresh "r" in let w := fresh "w" in let E := fresh "E" in
      apply wp_ext; intros r w E; destruct r;
      lazymatch keep with
      | false => clear E
      | true => cbn [world] in E
      end;
      wp_simpl
  | |- wp (ret _ _) _ _ => apply wp_ret
  | |- wp (raise _ _) _ _ => apply wp_raise
  | |- wp (lift _ ?o) _ _ =>
      let E := fresh "E" in
      apply wp_lift; destruct o eqn:E
  | |- wp (getitem _ ?d ?k) _ _ =>
      let E := fresh "E" in
      apply wp_getitem;
      first [ rewrite dict_get_singleton
            | match goal with H : dict_get d k = _ |- _ => rewrite H end
            | destruct (dict_get d k) eqn:E ]
  | |- wp (file_write _ _ _) _ _ => apply wp_file_write; wp_simpl
  | |- wp (with_open_w _ _ _ _) _ _ =>
      apply wp_with_open_w; [intros ? _; wp_simpl | intros _; wp_simpl]
  | |- wp (if _ then bind _ (get_dataset _ _ _ _ _) _ else _) _ _ =>
      rewrite get_dataset_eq;
      apply (wp_opt_ext _ _ _ _ (DatasetRef 0));
      [intros ? ? | intros ? ? _]; wp_simpl
  | |- wp (if _ then ext _ _ _ else ret _ tt) _ _ =>
      apply wp_opt_ext_unit; [intros ? | intros ? ? _]; wp_simpl
  | |- wp (if ?b then _ else _) _ _ =>
      let E := fresh "E" in destruct b eqn:E
  | |- wp (match ?o with Some _ => _ | None => _ end) _ _ =>
      let E := fresh "E" in destruct o eqn:E
  | |- wp (contains_opt _ _ _) _ _ => unfold contains_opt
  | |- wp (get_dataset _ _ _ _ _) _ _ => rewrite get_dataset_eq
  | |- wp (add_special_tokens_and_resize _ _ _ _) _ _ =>
      unfold add_special_tokens_and_resize
  | |- wp (write_eval_results _ _ _ _ _ _ _) _ _ =>
      unfold write_eval_results
  | |- wp (for_each _ (sorted ?ks) _) _ _ =>
      let ks' := eval cbn [keys map fst] in ks in
      change ks with ks'; rewrite sorted_singleton
  | |- wp (for_each _ (_ :: _) _) _ _ => cbn [for_each]
  | |- wp (for_each _ [] _) _ _ => cbn [for_each]
  | |- wp (main_with _ _ _ _ _ _ _ _) _ _ => unfold main_with
  end; cbv beta iota.

Ltac wp_step := wp_step_gen false.

(** A statement [let '(r, st) := m s in Q r st] is [wp m s Q]. *)
Ltac wp_start :=
  lazymatch goal with
  | |- (let '(r, st) := ?m ?s in @?Q r st) => change (wp m s Q); cbv beta
  end.

(** Start on a run of [main_with] from a fresh state. *)
Ltac main_start :=
  wp_start; unfold start, main_with;
  cbn [model_name_or_path cache_dir].

(** At the end of a path: decide the options the trace still depends on
    and flatten it. *)
Ltac wp_leaf :=
  cbn [world files trace log fh_path];
  unfold dataset_ctor;
  repeat match goal with
    | |- context [if ?b then (_ :: _) else []] => destruct b
    | |- context [if ?b then LineByLineTextDataset_new _ _ _ else _] =>
        destruct b
    end;
  cbn [app].

Ltac unfold_get_dataset := unfold get_dataset, ext.

Local Abbreviation main_with := (main_with World handle math_exp str_float open_error).
Local Abbreviation get_dataset := (get_dataset World handle).
Local Abbreviation ext := (ext World handle).
Local Abbreviation start := (start World).
Local Abbreviation add_special_tokens_and_resize :=
  (add_special_tokens_and_resize World handle).
Local Abbreviation write_eval_results :=
  (write_eval_results World handle str_float open_error).

(** *** [get_dataset] *)

(** C7: [get_dataset] reads the eval path when [evaluate] is set and the
    train path otherwise, and is exactly one call of one constructor, the
    line-by-line one when [line_by_line] is set and the chunked one
    otherwise, with that path, the tokenizer and the configured block
    size; its result is what the constructor returns. *)
Theorem get_dataset_delegates (args : DataArgs) (tokenizer : Tokenizer)
    (evaluate : bool) (st : St World) :
  let file_path :=
    if evaluate then eval_data_file args else train_data_file args in
  let ctor :=
    if line_by_line args
    then LineByLineTextDataset_new tokenizer file_path (block_size args)
    else TextDataset_new tokenizer file_path (block_size args) in
  get_dataset args tokenizer evaluate = ext ctor
  /\ (let '(r, st') := get_dataset args tokenizer evaluate st in
      r = fst (handle Dataset ctor (world st))
      /\ world st' = snd (handle Dataset ctor (world st))
      /\ trace st' = (trace st ++ [ObsExt ctor r])%list
      /\ files st' = files st).
Proof.
  intros file_path ctor. subst file_path ctor.
  unfold_get_dataset.
  destruct (line_by_line args); (split; [reflexivity|]);
    match goal with |- context [handle ?X ?c ?w] =>
      destruct (handle X c w) end; cbn; auto.
Qed.

(** C9: [get_dataset] never reads [overwrite_cache]: two data
    configurations that differ only in that flag give the same program,
    hence the same constructor call with the same arguments. *)
Theorem get_dataset_ignores_overwrite_cache (args : DataArgs) (b1 b2 : bool)
    (tokenizer : Tokenizer) (evaluate : bool) :
  get_dataset (set_overwrite_cache b1 args) tokenizer evaluate
  = get_dataset (set_overwrite_cache b2 args) tokenizer evaluate.
Proof. reflexivity. Qed.

(** *** The model path handed to [trainer.train] *)

(** C10: [trainer.train] is called at most once, and its [model_path] is
    the configured name exactly when [os.path.isdir] answered [True] for
    that name; in every other case, the hardcoded name ["gpt2"] without
    such a directory included, it is [None]. *)
Theorem train_model_path_only_for_directory (m : ModelArgs) (d : DataArgs)
    (t : TrainingArguments) (w : World) (fs : gmap string string) :
  let '(r, st) := main_with m d t (start w fs) in
  match r with
  | Ok _ => Trace.train_calls (trace st) = [expected_model_path m (trace st)]
  | Raised _ =>
      Trace.train_calls (trace st) = []
      \/ Trace.train_calls (trace st) = [expected_model_path m (trace st)]
  end.
Proof.
  destruct m as [cn [name|] mt tn cd]; main_start.
  all: repeat wp_step; wp_leaf.
  all: try (left; reflexivity).
  all: try right.
  all: unfold expected_model_path;
    cbn [model_name_or_path Trace.train_calls Trace.train_model_path omap
         existsb Trace.isdir_true orb];
    rewrite ?String.eqb_refl; cbn [andb orb]; rewrite ?orb_false_r;
    reflexivity.
Qed.

(** *** The separator token *)

Section TokenizerContract.

(** What the tokenizer and the model of the environment hold, and what
    the three library calls do to it. *)
Variable vocab_size : World -> Tokenizer -> Z.
Variable has_token : World -> Tokenizer -> string -> bool.
Variable embedding_rows : World -> Model -> Z.

Hypothesis add_fresh_token :
  forall tok name s w n w',
    handle Z (Tokenizer_add_special_tokens tok [(name, s)]) w = (Ok n, w') ->
    has_token w tok s = false ->
    vocab_size w' tok = vocab_size w tok + 1.

Hypothesis len_is_vocab_size :
  forall tok w n w',
    handle Z (Tokenizer_len tok) w = (Ok n, w') ->
    n = vocab_size w tok /\ vocab_size w' tok = vocab_size w tok.

Hypothesis resize_sets_rows :
  forall model n tok w u w',
    handle unit (Model_resize_token_embeddings model n) w = (Ok u, w') ->
    embedding_rows w' model = n /\ vocab_size w' tok = vocab_size w tok.


End TokenizerContract.

(** *** Evaluation, perplexity and the results file *)

Lemma written_file_lookup (fs : gmap string string) (path line : string) :
  (<[path := default "" (<[path := ""]> fs !! path) ++ line]>
     (<[path := ""]> fs)) !! path = Some line.
Proof. now rewrite lookup_insert_eq, lookup_insert_eq. Qed.

(** How a run of [main] stands with respect to evaluation when it ends:
    it never got the metrics, the metrics had no ["eval_loss"], [math.exp]
    raised on the loss, or the perplexity was computed and then reported,
    wholly or up to the call that raised. *)
Inductive EvalReport (t : TrainingArguments) (fs : gmap string string)
    (r : Outcome unit) (st : St World) : Prop :=
| NotEvaluated (e : Exn) :
    r = Raised e ->
    Trace.evaluated (trace st) = [] ->
    Trace.logged "perplexity" (trace st) = [] ->
    Trace.written (trace st) = [] ->
    files st = fs ->
    EvalReport t fs r st
| NoEvalLoss (metrics : dict pyfloat) :
    r = Raised (KeyError "eval_loss") ->
    Trace.evaluated (trace st) = [metrics] ->
    dict_get metrics "eval_loss" = None ->
    Trace.logged "perplexity" (trace st) = [] ->
    Trace.written (trace st) = [] ->
    files st = fs ->
    EvalReport t fs r st
| ExpRaised (metrics : dict pyfloat) (loss : pyfloat) (e : Exn) :
    r = Raised e ->
    Trace.evaluated (trace st) = [metrics] ->
    dict_get metrics "eval_loss" = Some loss ->
    math_exp loss = Raised e ->
    Trace.logged "perplexity" (trace st) = [] ->
    Trace.written (trace st) = [] ->
    files st = fs ->
    Trace.count [Trace.KOpen; Trace.KWrite; Trace.KWandbLog] (trace st) = 0%nat ->
    EvalReport t fs r st
| ReportAborted (metrics : dict pyfloat) (loss p : pyfloat) (e : Exn) :
    r = Raised e ->
    Trace.evaluated (trace st) = [metrics] ->
    dict_get metrics "eval_loss" = Some loss ->
    math_exp loss = Ok p ->
    (Trace.logged "perplexity" (trace st) = []
     \/ Trace.logged "perplexity" (trace st) = [p]) ->
    (Trace.written (trace st) = []
     \/ Trace.written (trace st) = [result_line str_float "perplexity" p]) ->
    EvalReport t fs r st
| Reported (metrics : dict pyfloat) (loss p : pyfloat) :
    r = Ok tt ->
    Trace.evaluated (trace st) = [metrics] ->
    dict_get metrics "eval_loss" = Some loss ->
    math_exp loss = Ok p ->
    Trace.logged "perplexity" (trace st) = [p] ->
    Trace.logged "eval_loss" (trace st) = [loss] ->
    Trace.written (trace st) = [result_line str_float "perplexity" p] ->
    files st !! results_path t
    = Some (result_line str_float "perplexity" p) ->
    EvalReport t fs r st.

Ltac report_field :=
  first [ eassumption | reflexivity | left; reflexivity | right; reflexivity
        | apply written_file_lookup ].

Lemma main_eval_report (m : ModelArgs) (d : DataArgs) (t : TrainingArguments)
    (w : World) (fs : gmap string string) :
  let '(r, st) := main_with m d t (start w fs) in EvalReport t fs r st.
Proof.
  main_start. repeat wp_step; wp_leaf.
  all: try match goal with |- EvalReport _ _ (Ok ?u) _ => destruct u end.
  all: first
    [ solve [eapply Reported; report_field]
    | solve [eapply NotEvaluated; report_field]
    | solve [eapply ReportAborted; report_field]
    | solve [eapply ExpRaised; report_field]
    | solve [eapply NoEvalLoss; report_field] ].
Qed.

(** Bring the report of a run into the context, case by case. *)
Ltac by_report m d t w fs :=
  let H := fresh "H" in
  pose proof (main_eval_report m d t w fs) as H;
  destruct (main_with m d t (start w fs)) as [r st];
  destruct H as
    [ e Hr Hev Hlog Hwr Hfs
    | metrics Hr Hev Hloss Hlog Hwr Hfs
    | metrics loss e Hr Hev Hloss Hexp Hlog Hwr Hfs Hcnt
    | metrics loss p e Hr Hev Hloss Hexp [Hlog|Hlog] [Hwr|Hwr]
    | metrics loss p Hr Hev Hloss Hexp Hlog Hlogl Hwr Hfs ].

(** C2: every perplexity [main] reports is [math.exp] of the
    ["eval_loss"] the trainer returned; a run that completes reports
    exactly one and writes it to the results file; and, [math.exp(0.0)]
    being [1.0], an evaluation loss of [0.0] gives a perplexity of
    exactly [1.0]. *)
Theorem perplexity_is_exp_of_eval_loss
    (Hexp0 : math_exp 0%float = Ok 1%float)
    (m : ModelArgs) (d : DataArgs) (t : TrainingArguments)
    (w : World) (fs : gmap string string) :
  let '(r, st) := main_with m d t (start w fs) in
  (forall p, In p (Trace.logged "perplexity" (trace st)) ->
     exists metrics loss,
       Trace.evaluated (trace st) = [metrics]
       /\ dict_get metrics "eval_loss" = Some loss
       /\ math_exp loss = Ok p)
  /\ (r = Ok tt ->
      exists p,
        Trace.logged "perplexity" (trace st) = [p]
        /\ files st !! results_path t
           = Some (result_line str_float "perplexity" p))
  /\ (forall metrics,
        Trace.evaluated (trace st) = [metrics] ->
        dict_get metrics "eval_loss" = Some 0%float ->
        forall p, In p (Trace.logged "perplexity" (trace st)) ->
                  p = 1%float).
Proof.
  by_report m d t w fs.
  all: repeat split.
  all: try (intros Hok; rewrite Hok in Hr; discriminate Hr).
  all: try (intros _; now eauto).
  all: try (intros q Hin; rewrite Hlog in Hin;
            first [destruct Hin as [<-|[]] | destruct Hin];
            now eauto 10).
  all: intros metrics' Hev' Hloss' q Hin; rewrite Hlog in Hin;
    first [destruct Hin as [<-|[]] | now destruct Hin].
  all: rewrite Hev in Hev'; injection Hev' as <-;
    rewrite Hloss in Hloss'; injection Hloss' as ->;
    rewrite Hexp0 in Hexp; now injection Hexp.
Qed.


(** C8: [main] applies [math.exp] to whatever loss the trainer returns,
    unchecked; when [math.exp] raises on that loss (as it does, with
    [OverflowError], on a large enough finite one), the exception leaves
    [main]: the run ends with it, no file is opened or written and nothing
    is sent to the metrics service. *)
Theorem perplexity_overflow_aborts
    (x : pyfloat) (err : Exn) (Hovf : math_exp x = Raised err)
    (m : ModelArgs) (d : DataArgs) (t : TrainingArguments)
    (w : World) (fs : gmap string string) :
  let '(r, st) := main_with m d t (start w fs) in
  forall metrics,
    Trace.evaluated (trace st) = [metrics] ->
    dict_get metrics "eval_loss" = Some x ->
    r = Raised err
    /\ files st = fs
    /\ Trace.count [Trace.KOpen; Trace.KWrite; Trace.KWandbLog] (trace st)
       = 0%nat.
Proof.
  by_report m d t w fs; intros metrics' Hev' Hloss'.
  all: rewrite Hev in Hev'; try discriminate Hev'.
  all: injection Hev' as <-; rewrite Hloss in Hloss'; try discriminate Hloss'.
  all: injection Hloss' as <-; rewrite Hovf in Hexp; try discriminate Hexp.
  injection Hexp as <-. now subst r.
Qed.

(** *** Training time *)


(** *** The lines of the results file *)






(** *** Logging *)

Lemma level_info_iff (rank : Z) :
  (if existsb (Z.eqb rank) [-1; 0] then INFO else WARN) = INFO
  <-> rank = -1 \/ rank = 0.
Proof.
  cbn [existsb]. destruct (Z.eqb_spec rank (-1)) as [->|H1].
  - cbn. tauto.
  - destruct (Z.eqb_spec rank 0) as [->|H0]; cbn.
    + tauto.
    + split; [discriminate|tauto].
Qed.

Lemma level_warn_iff (rank : Z) :
  (if existsb (Z.eqb rank) [-1; 0] then INFO else WARN) = WARN
  <-> rank <> -1 /\ rank <> 0.
Proof.
  cbn [existsb]. destruct (Z.eqb_spec rank (-1)) as [->|H1].
  - cbn. split; [discriminate|tauto].
  - destruct (Z.eqb_spec rank 0) as [->|H0]; cbn.
    + split; [discriminate|tauto].
    + tauto.
Qed.

(** X1: [logging.basicConfig] is called at most once, before any message is
    logged, with the format and date format of the script and with level
    [INFO] exactly when [local_rank] is [-1] or [0] ([WARN] otherwise); a
    run that completes has made the call. *)
Theorem logging_level_from_local_rank
    (m : ModelArgs) (d : DataArgs) (t : TrainingArguments)
    (w : World) (fs : gmap string string) :
  let '(r, st) := main_with m d t (start w fs) in
  Trace.precedes [Trace.KBasicConfig] [Trace.KWarning; Trace.KInfo]
    (trace st) = true
  /\ (exists level,
        (Calls.basic_configs (trace st) = []
         \/ Calls.basic_configs (trace st) = [(log_format, log_datefmt, level)])
        /\ (level = INFO <-> local_rank t = -1 \/ local_rank t = 0)
        /\ (level = WARN <-> local_rank t <> -1 /\ local_rank t <> 0)
        /\ (Trace.count [Trace.KWarning; Trace.KInfo] (trace st) <> 0%nat ->
            Calls.basic_configs (trace st)
            = [(log_format, log_datefmt, level)])).
Proof.
  main_start. repeat wp_step; wp_leaf.
  all: split; [reflexivity|].
  all: exists (if existsb (Z.eqb (local_rank t)) [-1; 0] then INFO else WARN).
  all: split; [first [right; reflexivity | left; reflexivity]|].
  all: split; [apply level_info_iff|].
  all: split; [apply level_warn_iff|].
  all: first [ intros _; reflexivity
             | intros H; exfalso; apply H; reflexivity ].
Qed.

(** X2: The one warning [main] logs reports the process rank, the device and
    the GPU count [training_args] answered, whether training is
    distributed, which it says exactly when [local_rank] is not [-1], and
    the [fp16] flag; a run that completes has logged it. *)
Theorem rank_warning_reports_environment
    (m : ModelArgs) (d : DataArgs) (t : TrainingArguments)
    (w : World) (fs : gmap string string) :
  let '(r, st) := main_with m d t (start w fs) in
  (Calls.warnings (trace st) = [] /\ r <> Ok tt)
  \/ (exists device n_gpu distributed,
        Calls.devices (trace st) = [device]
        /\ Calls.gpu_counts (trace st) = [n_gpu]
        /\ Calls.warnings (trace st)
           = [(msg_process_rank,
               [LInt (local_rank t); LStr device; LInt n_gpu;
                LBool distributed; LBool (fp16 t)])]
        /\ (distributed = true <-> local_rank t <> -1)).
Proof.
  main_start. repeat wp_step; wp_leaf.
  all: first
    [ left; split; [reflexivity|discriminate]
    | right; eexists _, _, _;
      split; [reflexivity|]; split; [reflexivity|]; split; [reflexivity|];
      rewrite negb_true_iff; apply Z.eqb_neq ].
Qed.

(** *** The seed *)

(** X3: [set_seed] is called at most once, with the configured seed, and
    before anything is loaded or built: a run that has asked for a
    configuration, a tokenizer, a model, a dataset or a trainer has set
    the seed first. *)
Theorem seed_set_before_loading
    (m : ModelArgs) (d : DataArgs) (t : TrainingArguments)
    (w : World) (fs : gmap string string) :
  let '(r, st) := main_with m d t (start w fs) in
  Trace.precedes [Trace.KSetSeed]
    [Trace.KConfig; Trace.KTokenizer; Trace.KModel;
     Trace.KLineByLineDataset; Trace.KTextDataset; Trace.KCollator;
     Trace.KTrainer; Trace.KTrain; Trace.KEvaluate] (trace st) = true
  /\ (Calls.seeds (trace st) = [] \/ Calls.seeds (trace st) = [seed t])
  /\ (Trace.count
        [Trace.KConfig; Trace.KTokenizer; Trace.KModel;
         Trace.KLineByLineDataset; Trace.KTextDataset; Trace.KCollator;
         Trace.KTrainer; Trace.KTrain; Trace.KEvaluate] (trace st) <> 0%nat ->
      Calls.seeds (trace st) = [seed t]).
Proof.
  main_start. repeat wp_step; wp_leaf.
  all: split; [reflexivity|].
  all: split; [first [right; reflexivity | left; reflexivity]|].
  all: first [ intros _; reflexivity
             | intros H; exfalso; apply H; reflexivity ].
Qed.

(** *** Loading the model *)

Lemma append_cons (c : ascii) (s1 s2 : string) :
  String c s1 ++ s2 = String c (s1 ++ s2).
Proof. reflexivity. Qed.

Lemma prefix_spec (sub s : string) :
  String.prefix sub s = true <-> exists post, s = sub ++ post.
Proof.
  revert s. induction sub as [|c sub IH]; intros s.
  - split; [intros _; now exists s|now destruct s].
  - destruct s as [|c' s]; cbn [String.prefix].
    + split; [discriminate|]. intros [post H]. discriminate H.
    + destruct (ascii_dec c c') as [<-|Hne].
      * rewrite IH. split; intros [post H]; exists post.
        -- now rewrite append_cons, H.
        -- rewrite append_cons in H. now injection H.
      * split; [discriminate|]. intros [post H].
        rewrite append_cons in H. injection H as H1 _. congruence.
Qed.

(** [contains sub s] is the substring test [sub in s]. *)
Lemma contains_spec (sub s : string) :
  contains sub s = true <-> exists pre post, s = pre ++ sub ++ post.
Proof.
  split.
  - induction s as [|c s IH]; cbn [contains]; rewrite orb_true_iff.
    + intros [H|H]; [|discriminate H].
      apply prefix_spec in H as [post H]. now exists "", post.
    + intros [H|H].
      * apply prefix_spec in H as [post H]. now exists "", post.
      * destruct (IH H) as (pre & post & ->).
        now exists (String c pre), post.
  - intros (pre & post & ->). induction pre as [|c pre IH].
    + change ("" ++ sub ++ post) with (sub ++ post).
      destruct (sub ++ post) eqn:E; cbn [contains]; rewrite orb_true_iff;
        left; apply prefix_spec; exists post; now rewrite E.
    + rewrite append_cons. cbn [contains]. rewrite IH. apply orb_true_r.
Qed.

(** X4: The model is requested at most once, after the configuration and the
    tokenizer were loaded under the same name and cache directory, with
    the configuration that [AutoConfig] returned and with [from_tf] set
    exactly when the name has [".ckpt"] as a substring; a run that
    completes has made the request. *)
Theorem model_requested_with_from_tf
    (m : ModelArgs) (d : DataArgs) (t : TrainingArguments)
    (w : World) (fs : gmap string string) :
  let '(r, st) := main_with m d t (start w fs) in
  (Calls.model_requests (trace st) = [] /\ r <> Ok tt)
  \/ (exists name from_tf config tok,
        model_name_or_path m = Some name
        /\ Calls.configs_loaded (trace st)
           = [(Some name, cache_dir m, config)]
        /\ Calls.tokenizers_loaded (trace st)
           = [(Some name, cache_dir m, tok)]
        /\ Calls.model_requests (trace st)
           = [(Some name, from_tf, config, cache_dir m)]
        /\ (from_tf = true <-> exists pre post, name = pre ++ ".ckpt" ++ post)).
Proof.
  main_start. repeat wp_step; wp_leaf.
  all: first
    [ left; split; [reflexivity|discriminate]
    | right; eexists _, _, _, _;
      split; [reflexivity|]; split; [reflexivity|]; split; [reflexivity|];
      split; [reflexivity|]; apply contains_spec ].
Qed.

(** X5: Without a model name, [".ckpt" in None] raises: the run ends with an
    exception (the [TypeError] of the test, unless a library call failed
    before it), no model is requested, nothing is trained or evaluated and
    no file is touched. *)
Theorem model_name_none_raises
    (m : ModelArgs) (d : DataArgs) (t : TrainingArguments)
    (w : World) (fs : gmap string string)
    (Hnone : model_name_or_path m = None) :
  let '(r, st) := main_with m d t (start w fs) in
  (exists e,
     r = Raised e
     /\ (Calls.failures (trace st) = [] ->
         e = TypeError "argument of type 'NoneType' is not iterable"))
  /\ Trace.count
       [Trace.KModel; Trace.KAddSpecialTokens; Trace.KTrainer; Trace.KTrain;
        Trace.KEvaluate; Trace.KOpen; Trace.KWandbLog] (trace st) = 0%nat
  /\ files st = fs.
Proof.
  destruct m as [cn [name|] mt tn cd]; [discriminate Hnone|clear Hnone].
  main_start. repeat wp_step; wp_leaf.
  all: split; [|split; reflexivity].
  all: eexists; split; [reflexivity|].
  all: first [ intros _; reflexivity | intros H; discriminate H ].
Qed.

(** *** Datasets and the trainer *)

(** X6: The training dataset is built exactly when [do_train] is set and the
    evaluation dataset exactly when [do_eval] is, in that order, each by
    the constructor [line_by_line] selects, from the loaded tokenizer, the
    train or eval file and the configured block size.  The trainer of a
    run that completes is requested once, with the loaded model, the
    training arguments, the collator built from the tokenizer and the
    [mlm] options, the datasets that were built ([None] for one that was
    not) and [prediction_loss_only=True]. *)
Theorem trainer_receives_datasets
    (m : ModelArgs) (d : DataArgs) (t : TrainingArguments)
    (w : World) (fs : gmap string string) :
  let '(r, st) := main_with m d t (start w fs) in
  Trace.precedes
    [Trace.KLineByLineDataset; Trace.KTextDataset; Trace.KCollator]
    [Trace.KTrainer] (trace st) = true
  /\ Nat.leb (length (Calls.datasets_built (trace st)))
             ((if do_train t then 1 else 0) + (if do_eval t then 1 else 0))
     = true
  /\ match r with
     | Ok _ =>
         exists name tok model coll x y,
           Calls.tokenizers_loaded (trace st) = [(name, cache_dir m, tok)]
           /\ Calls.models_loaded (trace st) = [model]
           /\ Calls.datasets_built (trace st)
              = ((if do_train t
                  then [(line_by_line d, tok, train_data_file d,
                         block_size d, x)]
                  else [])
                 ++ (if do_eval t
                     then [(line_by_line d, tok, eval_data_file d,
                            block_size d, y)]
                     else []))%list
           /\ Calls.collators_built (trace st)
              = [(tok, mlm d, mlm_probability d, coll)]
           /\ Calls.trainer_requests (trace st)
              = [{| Calls.ta_model := model;
                    Calls.ta_args := t;
                    Calls.ta_data_collator := coll;
                    Calls.ta_train_dataset :=
                      if do_train t then Some x else None;
                    Calls.ta_eval_dataset :=
                      if do_eval t then Some y else None;
                    Calls.ta_prediction_loss_only := true |}]
     | Raised _ => Nat.leb (Trace.count [Trace.KTrainer] (trace st)) 1 = true
     end.
Proof.
  main_start. repeat wp_step; wp_leaf.
  all: try destruct (do_train t); try destruct (do_eval t).
  all: split; [reflexivity|]; split; [reflexivity|].
  all: try reflexivity.
  all: match goal with
       | x1 : Dataset, x2 : Dataset |- _ =>
           eexists _, _, _, _, x1, x2; repeat split; reflexivity
       end.
Qed.

(** *** Saving *)

(** The step of a call made under a condition, keeping the condition in
    the case where the call raised. *)
Ltac wp_step_cond :=
  lazymatch goal with
  | |- wp (if ?b then _ else ret _ tt) _ _ =>
      apply wp_opt_ext_unit; [intros ? | intros ? ? ->]; wp_simpl
  end.

(** X7: The model is saved only after training, and the tokenizer only after
    the model: [save_pretrained] is called at most once, on the loaded
    tokenizer, with the output directory, and only when
    [trainer.is_world_master()] answered [True].  A run that completes
    has saved the model once and asked [is_world_master] once, and has
    saved the tokenizer exactly when the answer was [True]. *)
Theorem tokenizer_saved_by_world_master
    (m : ModelArgs) (d : DataArgs) (t : TrainingArguments)
    (w : World) (fs : gmap string string) :
  let '(r, st) := main_with m d t (start w fs) in
  Trace.precedes [Trace.KTrain] [Trace.KSaveModel] (trace st) = true
  /\ Trace.precedes [Trace.KSaveModel]
       [Trace.KIsWorldMaster; Trace.KSavePretrained] (trace st) = true
  /\ Trace.precedes [Trace.KIsWorldMaster] [Trace.KSavePretrained]
       (trace st) = true
  /\ Forall (fun '(tok, dir) =>
               dir = output_dir t
               /\ Calls.world_master_answers (trace st) = [true]
               /\ exists name,
                    Calls.tokenizers_loaded (trace st)
                    = [(name, cache_dir m, tok)])
            (Calls.saved_pretrained (trace st))
  /\ match r with
     | Ok _ =>
         Trace.count [Trace.KSaveModel] (trace st) = 1%nat
         /\ exists master,
              Calls.world_master_answers (trace st) = [master]
              /\ length (Calls.saved_pretrained (trace st))
                 = if master then 1%nat else 0%nat
     | Raised _ =>
         Nat.leb (length (Calls.saved_pretrained (trace st))) 1 = true
     end.
Proof.
  main_start. repeat first [wp_step_cond | wp_step]; wp_leaf.
  all: split; [reflexivity|]; split; [reflexivity|]; split; [reflexivity|].
  all: split;
    [ cbn; repeat econstructor
    | first [ reflexivity
            | split; [reflexivity|]; eexists; split; reflexivity ] ].
Qed.

(** *** The metrics service *)

(** X8: [main] calls [wandb.log] only after training, evaluation and the
    results file are done: a first [wandb.log] finds the file written and
    closed.  A run that completes has logged four mappings, in this
    order: the training loss [trainer.train] returned, the evaluation
    loss, the perplexity and the training time. *)
Theorem metrics_sent_in_order
    (m : ModelArgs) (d : DataArgs) (t : TrainingArguments)
    (w : World) (fs : gmap string string) :
  let '(r, st) := main_with m d t (start w fs) in
  Trace.precedes
    [Trace.KTrain; Trace.KEvaluate; Trace.KOpen; Trace.KWrite; Trace.KClose]
    [Trace.KWandbLog] (trace st) = true
  /\ Nat.leb (length (Calls.wandb_logs (trace st))) 4 = true
  /\ (Calls.wandb_logs (trace st) <> [] ->
      Calls.closed (trace st) = [results_path t]
      /\ exists p,
           Trace.written (trace st) = [result_line str_float "perplexity" p])
  /\ match r with
     | Ok _ =>
         exists out metrics loss p t1 t2,
           Calls.train_outputs (trace st) = [out]
           /\ Trace.evaluated (trace st) = [metrics]
           /\ dict_get metrics "eval_loss" = Some loss
           /\ math_exp loss = Ok p
           /\ Trace.train_window (trace st) = Some (t1, t2)
           /\ Calls.wandb_logs (trace st)
              = [[("train_loss", training_loss out)];
                 [("eval_loss", loss)];
                 [("perplexity", p)];
                 [("train_time", hours_between t1 t2)]]
     | Raised _ => True
     end.
Proof.
  main_start. repeat wp_step; wp_leaf.
  all: split; [reflexivity|]; split; [reflexivity|].
  all: split;
    [ first [ intros _; split; [reflexivity|eexists; reflexivity]
            | intros H; exfalso; apply H; reflexivity ]
    | try exact I ].
  all: eexists _, _, _, _, _, _.
  all: split; [reflexivity|]; split; [reflexivity|].
  all: split; [eassumption|]; split; [eassumption|].
  all: split; reflexivity.
Qed.

(** *** The results file *)

(** The step of [with open(...)] when [open] is known to be refused. *)
Ltac wp_step_refused H :=
  lazymatch goal with
  | |- wp (with_open_w _ _ _ _) _ _ =>
      let He := fresh "He" in
      apply wp_with_open_w;
      [ intros ? He; rewrite H in He; injection He as <-; wp_simpl
      | intros He; rewrite H in He; discriminate He ]
  end.

(** X9: When [open] refuses the results file, the exception leaves [main]: no
    run completes, the file store is as it was, nothing is written or closed and
    [wandb.log] is never called; a run that got as far as the perplexity
    ends with the exception of [open], its only failed step. *)
Theorem open_refused_aborts (err : Exn)
    (m : ModelArgs) (d : DataArgs) (t : TrainingArguments)
    (w : World) (fs : gmap string string)
    (Hrefused : forall w', open_error w' (results_path t) = Some err) :
  let '(r, st) := main_with m d t (start w fs) in
  r <> Ok tt
  /\ files st = fs
  /\ Trace.count [Trace.KWrite; Trace.KClose; Trace.KWandbLog] (trace st)
     = 0%nat
  /\ (forall metrics loss p,
        Trace.evaluated (trace st) = [metrics] ->
        dict_get metrics "eval_loss" = Some loss ->
        math_exp loss = Ok p ->
        r = Raised err /\ Calls.failures (trace st) = [err]).
Proof.
  unfold results_path in Hrefused.
  main_start. repeat first [wp_step_refused Hrefused | wp_step]; wp_leaf.
  all: split; [discriminate|]; split; [reflexivity|]; split; [reflexivity|].
  all: intros metrics loss q Hev Hloss Hexp.
  all: first [ discriminate Hev | injection Hev as <- ].
  all: first [ split; reflexivity | congruence ].
Qed.

(** X10: When the metrics [trainer.evaluate] returned have no ["eval_loss"],
    the lookup raises and the [KeyError] leaves [main]: the run ends with
    it before any file is opened or written and before any [wandb.log],
    with no step of the run having failed. *)
Theorem missing_eval_loss_raises_key_error
    (m : ModelArgs) (d : DataArgs) (t : TrainingArguments)
    (w : World) (fs : gmap string string) :
  let '(r, st) := main_with m d t (start w fs) in
  forall metrics,
    Trace.evaluated (trace st) = [metrics] ->
    dict_get metrics "eval_loss" = None ->
    r = Raised (KeyError "eval_loss")
    /\ files st = fs
    /\ Calls.failures (trace st) = []
    /\ Trace.count [Trace.KOpen; Trace.KWrite; Trace.KWandbLog] (trace st)
       = 0%nat.
Proof.
  main_start. repeat wp_step; wp_leaf.
  all: intros metrics Hev Hloss.
  all: first [ discriminate Hev | injection Hev as <- ].
  all: first [ repeat split; reflexivity | congruence ].
Qed.

(** X11: Through [open], [main] writes to one file only (what the
    libraries save is their own).  Every other path of the file store is
    as it was; when no [open] succeeded the whole store is; and once the
    results file is open it holds exactly what the run has written so far,
    whatever it held before. *)
Theorem only_results_file_touched
    (m : ModelArgs) (d : DataArgs) (t : TrainingArguments)
    (w : World) (fs : gmap string string) :
  let '(r, st) := main_with m d t (start w fs) in
  (forall q, q <> results_path t -> files st !! q = fs !! q)
  /\ match Calls.opened (trace st) with
     | [] => files st = fs
     | [path] =>
         path = results_path t
         /\ files st !! path = Some (join_lines (Trace.written (trace st)))
     | _ => False
     end.
Proof.
  main_start. repeat wp_step; wp_leaf.
  all: split;
    [ intros q Hq; unfold results_path in Hq;
      rewrite ?lookup_insert_ne by congruence; reflexivity
    | lazymatch goal with
      | |- match ?o with _ => _ end =>
          let o' := eval cbn in o in change o with o'; cbv beta iota
      end ].
  all: first
    [ reflexivity
    | split; [reflexivity|]; unfold Trace.written; cbn [omap list_omap join_lines fold_right];
      first [ apply lookup_insert_eq
            | rewrite append_nil_r; apply written_file_lookup ] ].
Qed.

(** X12: The results file is opened at most once, under the name
    [eval_results_lm.txt] in the output directory, is written only while
    open, and is closed whenever it was opened, also when a call inside
    the [with] block raised. *)
Theorem results_file_always_closed
    (m : ModelArgs) (d : DataArgs) (t : TrainingArguments)
    (w : World) (fs : gmap string string) :
  let '(r, st) := main_with m d t (start w fs) in
  Calls.closed (trace st) = Calls.opened (trace st)
  /\ (Calls.opened (trace st) = []
      \/ Calls.opened (trace st)
         = [os_path_join (output_dir t) "eval_results_lm.txt"])
  /\ Nat.leb (Trace.count [Trace.KOpen] (trace st)) 1 = true
  /\ Trace.precedes [Trace.KOpen] [Trace.KWrite] (trace st) = true
  /\ Trace.precedes [Trace.KWrite] [Trace.KClose] (trace st) = true
  /\ (Trace.count [Trace.KWrite] (trace st) <> 0%nat ->
      Calls.opened (trace st) <> []).
Proof.
  main_start. repeat wp_step; wp_leaf.
  all: split; [reflexivity|].
  all: split; [first [left; reflexivity | right; reflexivity]|].
  all: split; [reflexivity|]; split; [reflexivity|]; split; [reflexivity|].
  all: first [ intros _; discriminate
             | intros H; exfalso; apply H; reflexivity ].
Qed.

(** *** Failures *)


(** *** [main] as the script configures it *)

(** X14: A run of [main] that completes, in any environment, has: configured
    logging at level [INFO] and logged that training is not distributed;
    set the seed [42]; loaded configuration, tokenizer and model under
    the name ["gpt2"], with no cache directory and [from_tf=False]; built
    the chunked dataset of [/data/train.txt] and then that of
    [/data/eval.txt], with block size 512; built the collator without
    masked language modelling; requested the trainer with both datasets;
    trained from no checkpoint when ["gpt2"] is not a directory; and
    written [/gpt2/eval_results_lm.txt]. *)
Theorem main_hardcoded_configuration (w : World) (fs : gmap string string) :
  let '(r, st) :=
    main handle math_exp str_float open_error (start w fs) in
  match r with
  | Ok _ =>
      exists device n_gpu config tok model x y coll,
        Calls.basic_configs (trace st) = [(log_format, log_datefmt, INFO)]
        /\ Calls.warnings (trace st)
           = [(msg_process_rank,
               [LInt (-1); LStr device; LInt n_gpu; LBool false; LBool false])]
        /\ Calls.seeds (trace st) = [42]
        /\ Calls.configs_loaded (trace st) = [(Some "gpt2", None, config)]
        /\ Calls.tokenizers_loaded (trace st) = [(Some "gpt2", None, tok)]
        /\ Calls.model_requests (trace st)
           = [(Some "gpt2", false, config, None)]
        /\ Calls.models_loaded (trace st) = [model]
        /\ Calls.datasets_built (trace st)
           = [(false, tok, "/data/train.txt", 512, x);
              (false, tok, "/data/eval.txt", 512, y)]
        /\ Calls.collators_built (trace st) = [(tok, false, 0.15%float, coll)]
        /\ Calls.trainer_requests (trace st)
           = [{| Calls.ta_model := model;
                 Calls.ta_args := default_training_args;
                 Calls.ta_data_collator := coll;
                 Calls.ta_train_dataset := Some x;
                 Calls.ta_eval_dataset := Some y;
                 Calls.ta_prediction_loss_only := true |}]
        /\ (existsb (Trace.isdir_true "gpt2") (trace st) = false ->
            Trace.train_calls (trace st) = [None])
        /\ Forall (fun '(tok', dir) => tok' = tok /\ dir = "/gpt2")
                  (Calls.saved_pretrained (trace st))
        /\ Calls.opened (trace st) = ["/gpt2/eval_results_lm.txt"]
  | Raised _ => True
  end.
Proof.
  unfold main. wp_start. unfold start, main_with.
  cbn [model_name_or_path cache_dir default_model_args
       local_rank seed fp16 do_train do_eval output_dir
       default_training_args].
  repeat wp_step.
  all: try exact I.
  all: unfold dataset_ctor;
    cbn [line_by_line train_data_file eval_data_file block_size mlm
         mlm_probability default_data_args];
    wp_leaf.
  all: repeat match goal with b : bool |- _ => destruct b end.
  all: eexists _, _, _, _, _, _, _, _.
  all: do 10 (split; [reflexivity|]).
  all: split;
    [ intros H; first [reflexivity | vm_compute in H; discriminate H]
    | split; [cbn; repeat constructor | reflexivity] ].
Qed.

(** *** The objects [main] passes on *)

(** X15: Every object [main] uses is the one it was given by the call that
    makes it: each message goes to the logger [getLogger] returned, the
    model is requested with the configuration [AutoConfig] returned, the
    special tokens, the datasets, the collator and [save_pretrained] use
    the tokenizer [AutoTokenizer] returned, the resized model and the
    model of the trainer are the model that was loaded, and training,
    saving and evaluation are calls on the one trainer that was built. *)
Theorem objects_flow_from_their_makers
    (m : ModelArgs) (d : DataArgs) (t : TrainingArguments)
    (w : World) (fs : gmap string string) :
  let '(r, st) := main_with m d t (start w fs) in
  Forall (fun lg => Calls.loggers (trace st) = [lg])
         (omap Calls.logger_used (trace st))
  /\ Forall (fun cfg =>
               Calls.configs_loaded (trace st)
               = [(model_name_or_path m, cache_dir m, cfg)])
            (omap Calls.config_used (trace st))
  /\ Forall (fun tok =>
               Calls.tokenizers_loaded (trace st)
               = [(model_name_or_path m, cache_dir m, tok)])
            (omap Calls.tokenizer_used (trace st))
  /\ Forall (fun model => Calls.models_loaded (trace st) = [model])
            (omap Calls.model_used (trace st))
  /\ Forall (fun trainer => Calls.trainers_built (trace st) = [trainer])
            (omap Calls.trainer_used (trace st)).
Proof.
  main_start. repeat wp_step; wp_leaf.
  all: repeat split.
  all: cbn [omap list_omap Calls.logger_used Calls.config_used
            Calls.tokenizer_used Calls.model_used Calls.trainer_used].
  all: repeat (constructor; [reflexivity|]).
  all: constructor.
Qed.

(** *** The results block, to its end *)




(** *** What is logged *)

(** X17: A run that completes has logged four messages at level [INFO], in
    this order: the training arguments, the start of the evaluation, the
    head of the results and one line for the perplexity; the value that
    line shows is the string the results file holds for it. *)
Theorem info_messages_match_results_file
    (m : ModelArgs) (d : DataArgs) (t : TrainingArguments)
    (w : World) (fs : gmap string string) :
  let '(r, st) := main_with m d t (start w fs) in
  Nat.leb (length (Calls.infos (trace st))) 4 = true
  /\ Trace.precedes [Trace.KWrite] [Trace.KWandbLog] (trace st) = true
  /\ match r with
     | Ok _ =>
         exists p,
           Calls.infos (trace st)
           = [(msg_parameters, [LTrainingArguments t]);
              (msg_evaluate, []);
              (msg_eval_results, []);
              (msg_key_value, [LStr "perplexity"; LStr (str_float p)])]
           /\ files st !! results_path t
              = Some ("perplexity" ++ " = " ++ str_float p ++ newline)
     | Raised _ =>
         Forall (fun '(fmt, args) =>
                   fmt = msg_key_value ->
                   exists p, args = [LStr "perplexity"; LStr (str_float p)])
                (Calls.infos (trace st))
     end.
Proof.
  main_start. repeat wp_step; wp_leaf.
  all: split; [reflexivity|]; split; [reflexivity|].
  all: first
    [ eexists; split; [reflexivity|apply written_file_lookup]
    | cbn;
      repeat (constructor;
              [first [ intros _; eexists; reflexivity
                     | intros H; discriminate H ]|]);
      constructor ].
Qed.

(** *** What [do_train] and [do_eval] decide *)

(** X18: [do_train] and [do_eval] decide which datasets are built, and
    nothing else: a run that completes has trained once, saved the model
    once and evaluated once whatever the two flags are, with a trainer
    that was given [None] for each dataset whose flag is off. *)
Theorem flags_guard_datasets_only
    (m : ModelArgs) (d : DataArgs) (t : TrainingArguments)
    (w : World) (fs : gmap string string) :
  let '(r, st) := main_with m d t (start w fs) in
  match r with
  | Ok _ =>
      Trace.count [Trace.KTrain] (trace st) = 1%nat
      /\ Trace.count [Trace.KSaveModel] (trace st) = 1%nat
      /\ Trace.count [Trace.KEvaluate] (trace st) = 1%nat
      /\ length (Calls.datasets_built (trace st))
         = ((if do_train t then 1 else 0) + (if do_eval t then 1 else 0))%nat
      /\ exists a,
           Calls.trainer_requests (trace st) = [a]
           /\ (do_train t = false -> Calls.ta_train_dataset a = None)
           /\ (do_eval t = false -> Calls.ta_eval_dataset a = None)
  | Raised _ =>
      Nat.leb (Trace.count [Trace.KTrain] (trace st)) 1 = true
      /\ Nat.leb (Trace.count [Trace.KEvaluate] (trace st)) 1 = true
      /\ Trace.precedes [Trace.KTrain] [Trace.KEvaluate] (trace st) = true
  end.
Proof.
  main_start. repeat wp_step; wp_leaf.
  all: try destruct (do_train t); try destruct (do_eval t).
  all: try (split; [reflexivity|]; split; reflexivity).
  all: do 4 (split; [reflexivity|]).
  all: eexists; split; [reflexivity|].
  all: split; intros H; first [reflexivity | discriminate H].
Qed.

End Properties.

(** ** The properties in the stub environment *)

(** A statement about a run, read on its two components. *)
Lemma run_proj {A B} (p : A * B) (Q : A -> B -> Prop) :
  (let '(a, b) := p in Q a b) -> Q (fst p) (snd p).
Proof. destruct p. exact (fun H => H). Qed.

Module MockFacts.



Definition embedding_rows (w : Mock.World) (m : Model) : Z :=
  Mock.embedding_rows w.




(** The run of [main] as the script has it. *)
Definition default_run : Outcome unit * St Mock.World :=
  Mock.run default_model_args default_data_args default_training_args
    Mock.world0 ∅.

(** A trainer whose evaluation loss is [1000.0]. *)
Definition world_huge_loss : Mock.World :=
  Mock.with_eval_metrics [("eval_loss", 1000%float)] Mock.world0.



End MockFacts.



(** The stub [math.exp] gives [1.0] at [0.0], and the default run reports a
    perplexity of [1.0]. *)
Lemma perplexity_is_exp_of_eval_loss_witness :
  Mock.math_exp 0%float = Ok 1%float
  /\ (let '(r, st) :=
        main_with Mock.World Mock.handle Mock.math_exp Mock.str_float
          Mock.open_error default_model_args default_data_args
          default_training_args (start Mock.World Mock.world0 ∅) in
      (forall p, In p (Trace.logged "perplexity" (trace st)) ->
         exists metrics loss,
           Trace.evaluated (trace st) = [metrics]
           /\ dict_get metrics "eval_loss" = Some loss
           /\ Mock.math_exp loss = Ok p)
      /\ (r = Ok tt ->
          exists p,
            Trace.logged "perplexity" (trace st) = [p]
            /\ files st !! results_path default_training_args
               = Some (result_line Mock.str_float "perplexity" p))
      /\ (forall metrics,
            Trace.evaluated (trace st) = [metrics] ->
            dict_get metrics "eval_loss" = Some 0%float ->
            forall p, In p (Trace.logged "perplexity" (trace st)) ->
                      p = 1%float))
  /\ (let '(r, st) := MockFacts.default_run in
      r = Ok tt
      /\ Trace.evaluated (trace st)
         = [[("eval_loss", 0%float); ("epoch", 5%float)]]
      /\ Trace.logged "perplexity" (trace st) = [1%float]).
Proof.
  assert (H0 : Mock.math_exp 0%float = Ok 1%float)
    by (vm_compute; reflexivity).
  split; [exact H0|]. split.
  - pose proof (perplexity_is_exp_of_eval_loss
                  Mock.handle Mock.math_exp Mock.str_float Mock.open_error
                  H0 default_model_args default_data_args
                  default_training_args Mock.world0 ∅) as H.
    exact H.
  - vm_compute. repeat split; reflexivity.
Defined.



(** The stub [math.exp] overflows at [1000.0]; a run whose evaluation loss
    is [1000.0] ends with [OverflowError] and writes no file. *)
Lemma perplexity_overflow_aborts_witness :
  Mock.math_exp 1000%float = Raised OverflowError
  /\ PrimFloat.is_finite 1000%float = true
  /\ (let '(r, st) :=
        main_with Mock.World Mock.handle Mock.math_exp Mock.str_float
          Mock.open_error default_model_args default_data_args
          default_training_args
          (start Mock.World MockFacts.world_huge_loss ∅) in
      forall metrics,
        Trace.evaluated (trace st) = [metrics] ->
        dict_get metrics "eval_loss" = Some 1000%float ->
        r = Raised OverflowError
        /\ files st = ∅
        /\ Trace.count [Trace.KOpen; Trace.KWrite; Trace.KWandbLog] (trace st)
           = 0%nat)
  /\ (let '(r, st) :=
        Mock.run default_model_args default_data_args default_training_args
          MockFacts.world_huge_loss ∅ in
      Trace.evaluated (trace st) = [[("eval_loss", 1000%float)]]
      /\ r = Raised OverflowError).
Proof.
  assert (H0 : Mock.math_exp 1000%float = Raised OverflowError)
    by (vm_compute; reflexivity).
  split; [exact H0|]. split; [vm_compute; reflexivity|]. split.
  - pose proof (perplexity_overflow_aborts
                  Mock.handle Mock.math_exp Mock.str_float Mock.open_error
                  1000%float OverflowError H0
                  default_model_args default_data_args default_training_args
                  MockFacts.world_huge_loss ∅) as H.
    exact H.
  - vm_compute. split; reflexivity.
Defined.

(** ** Where the script departs from its description *)



(** ** More cases in the stub environment *)

Module MockCases.

(** A configuration without a model name. *)
Definition unnamed_model_args : ModelArgs := {|
  config_name := None;
  model_name_or_path := None;
  model_type := "gpt2";
  tokenizer_name := None;
  cache_dir := None
|}.

(** An output directory that cannot be written to. *)
Definition permission_error : Exn :=
  PyExn "PermissionError" "[Errno 13] Permission denied".

Definition open_refused (w : Mock.World) (path : string) : option Exn :=
  Some permission_error.

(** A trainer whose metrics have no evaluation loss. *)
Definition world_no_loss : Mock.World :=
  Mock.with_eval_metrics [("epoch", 5%float)] Mock.world0.

End MockCases.

(** Without a model name the stub run ends with the [TypeError]. *)
Lemma model_name_none_raises_witness :
  model_name_or_path MockCases.unnamed_model_args = None
  /\ (let '(r, st) :=
        main_with Mock.World Mock.handle Mock.math_exp Mock.str_float
          Mock.open_error MockCases.unnamed_model_args default_data_args
          default_training_args (start Mock.World Mock.world0 ∅) in
      (exists e,
         r = Raised e
         /\ (Calls.failures (trace st) = [] ->
             e = TypeError "argument of type 'NoneType' is not iterable"))
      /\ Trace.count
           [Trace.KModel; Trace.KAddSpecialTokens; Trace.KTrainer;
            Trace.KTrain; Trace.KEvaluate; Trace.KOpen; Trace.KWandbLog]
           (trace st) = 0%nat
      /\ files st = ∅)
  /\ fst (Mock.run MockCases.unnamed_model_args default_data_args
            default_training_args Mock.world0 ∅)
     = Raised (TypeError "argument of type 'NoneType' is not iterable").
Proof.
  split; [reflexivity|]. split.
  - pose proof (model_name_none_raises
                  Mock.handle Mock.math_exp Mock.str_float Mock.open_error
                  MockCases.unnamed_model_args default_data_args
                  default_training_args Mock.world0 ∅ eq_refl) as H.
    exact H.
  - vm_compute. reflexivity.
Defined.

(** With an [open] that is refused the stub run evaluates and then ends
    with the exception of [open]. *)
Lemma open_refused_aborts_witness :
  (forall w',
     MockCases.open_refused w' (results_path default_training_args)
     = Some MockCases.permission_error)
  /\ (let '(r, st) :=
        main_with Mock.World Mock.handle Mock.math_exp Mock.str_float
          MockCases.open_refused default_model_args default_data_args
          default_training_args (start Mock.World Mock.world0 ∅) in
      r <> Ok tt
      /\ files st = ∅
      /\ Trace.count [Trace.KWrite; Trace.KClose; Trace.KWandbLog] (trace st)
         = 0%nat
      /\ (forall metrics loss p,
            Trace.evaluated (trace st) = [metrics] ->
            dict_get metrics "eval_loss" = Some loss ->
            Mock.math_exp loss = Ok p ->
            r = Raised MockCases.permission_error
            /\ Calls.failures (trace st) = [MockCases.permission_error]))
  /\ (let '(r, st) :=
        main_with Mock.World Mock.handle Mock.math_exp Mock.str_float
          MockCases.open_refused default_model_args default_data_args
          default_training_args (start Mock.World Mock.world0 ∅) in
      r = Raised MockCases.permission_error
      /\ Trace.evaluated (trace st) = [Mock.eval_metrics Mock.world0]
      /\ Trace.count [Trace.KOpen] (trace st) = 1%nat).
Proof.
  assert (H0 : forall w',
             MockCases.open_refused w' (results_path default_training_args)
             = Some MockCases.permission_error)
    by (intros w'; reflexivity).
  split; [exact H0|]. split.
  - pose proof (open_refused_aborts
                  Mock.handle Mock.math_exp Mock.str_float
                  MockCases.open_refused MockCases.permission_error
                  default_model_args default_data_args
                  default_training_args Mock.world0 ∅ H0) as H.
    exact H.
  - vm_compute. repeat split; reflexivity.
Defined.

(** With metrics that lack the loss the stub run ends with the
    [KeyError]. *)
Lemma missing_eval_loss_raises_key_error_witness :
  (let '(r, st) :=
     main_with Mock.World Mock.handle Mock.math_exp Mock.str_float
       Mock.open_error default_model_args default_data_args
       default_training_args (start Mock.World MockCases.world_no_loss ∅) in
   Trace.evaluated (trace st) = [[("epoch", 5%float)]]
   /\ dict_get [("epoch", 5%float)] "eval_loss" = None
   /\ r = Raised (KeyError "eval_loss"))
  /\ (let '(r, st) :=
        main_with Mock.World Mock.handle Mock.math_exp Mock.str_float
          Mock.open_error default_model_args default_data_args
          default_training_args (start Mock.World MockCases.world_no_loss ∅) in
      forall metrics,
        Trace.evaluated (trace st) = [metrics] ->
        dict_get metrics "eval_loss" = None ->
        r = Raised (KeyError "eval_loss")
        /\ files st = ∅
        /\ Calls.failures (trace st) = []
        /\ Trace.count [Trace.KOpen; Trace.KWrite; Trace.KWandbLog] (trace st)
           = 0%nat).
Proof.
  split.
  - vm_compute. repeat split; reflexivity.
  - pose proof (missing_eval_loss_raises_key_error
                  Mock.handle Mock.math_exp Mock.str_float Mock.open_error
                  default_model_args default_data_args
                  default_training_args MockCases.world_no_loss ∅) as H.
    exact H.
Defined.

